(** * Haru Blog Tool: a shallow embedding of [app.py]

    The four stages of the tool (identity gate, content fetch, spreadsheet
    sync, schedule generation) are embedded as Rocq functions.  Everything
    the program obtains from outside (the clock, HTTP responses, the chat
    completion service, the spreadsheet service, the token decoder) is an
    explicit argument, so that each function is a pure function of its
    inputs and of the answers of its environment. *)

From Stdlib Require Import ZArith List Lia String Ascii Bool Floats Uint63 DecimalString.
From stdpp Require Import gmap.
Import ListNotations.
Local Open Scope Z_scope.

(** ** Python values *)

(** A Python [str] is a sequence of Unicode code points; [len] counts code
    points. *)
Definition pystr : Type := list N.

(** ASCII literals of the source. *)
Definition lit (s : string) : pystr :=
  List.map N_of_ascii (list_ascii_of_string s).

Definition pystr_eqb (a b : pystr) : bool := bool_decide (a = b).

(** The exceptions that the modelled code can meet.  All of them are
    subclasses of [Exception], so a broad [except Exception] catches each. *)
Inductive exn : Type :=
| AttributeError
| TypeError
| ValueError
| KeyError
| OverflowError
| StopIteration
| JSONDecodeError
| RequestException
| APIError
| DecodeError
| InvalidSignatureError
| ExpiredSignatureError
| InvalidIssuerError.

(** The outcome of evaluating a Python expression: a value or a raised
    exception. *)
Inductive res (A : Type) : Type :=
| Ok (a : A)
| Raise (e : exn).
Arguments Ok {A} a.
Arguments Raise {A} e.

#[export] Instance res_ret : MRet res := fun A a => Ok a.
#[export] Instance res_bind : MBind res := fun A B f m =>
  match m with
  | Ok a => f a
  | Raise e => Raise e
  end.

(** JSON documents as [json.loads] / [Response.json] returns them: [None],
    [bool], [int], [float], [str], [list] and [dict].  A [dict] is kept as
    the list of its items in insertion order, looked up by first match. *)
#[warnings="-register-all"]
Inductive json : Type :=
| JNull
| JBool (b : bool)
| JInt (z : Z)
| JFloat (f : float)
| JStr (s : pystr)
| JArr (items : list json)
| JObj (fields : list (pystr * json)).

(** Truth value of an object ([if x], [not x], [x or y]). *)
Definition truthy (v : json) : bool :=
  match v with
  | JNull => false
  | JBool b => b
  | JInt z => negb (z =? 0)
  | JFloat f => negb (PrimFloat.eqb f PrimFloat.zero)
  | JStr s => negb (Nat.eqb (length s) 0)
  | JArr l => negb (Nat.eqb (length l) 0)
  | JObj kv => negb (Nat.eqb (length kv) 0)
  end.

(** [d.get(key, default)] on a [dict]. *)
Fixpoint dict_get (kv : list (pystr * json)) (key : pystr) (default : json) : json :=
  match kv with
  | [] => default
  | (k, v) :: kv' => if pystr_eqb k key then v else dict_get kv' key default
  end.

(** [v.get(key, default)] on an arbitrary object: only a [dict] has the
    method. *)
Definition py_get (v : json) (key : pystr) (default : json) : res json :=
  match v with
  | JObj kv => Ok (dict_get kv key default)
  | _ => Raise AttributeError
  end.

(** [str(n)] for an [int]. *)
Definition str_of_Z (z : Z) : pystr :=
  lit (NilZero.string_of_int (Z.to_int z)).

Section Stringify.
(** [repr] of the values whose text is not a plain literal or a decimal
    numeral ([float], [list], [dict]); it is the library's business and is
    left as a parameter. *)
Variable py_repr : json -> pystr.

(** [str(v)], which is also what an f-string field and [astype(str)]
    produce. *)
Definition py_str (v : json) : pystr :=
  match v with
  | JStr s => s
  | JNull => lit "None"
  | JBool true => lit "True"
  | JBool false => lit "False"
  | JInt z => str_of_Z z
  | _ => py_repr v
  end.
End Stringify.

(** Code points for which [str.isspace] holds; [str.strip()] removes them
    from both ends. *)
Definition isspace (c : N) : bool :=
  ((9 <=? c) && (c <=? 13) || (28 <=? c) && (c <=? 32) || (c =? 133) || (c =? 160)
   || (c =? 5760) || (8192 <=? c) && (c <=? 8202) || (c =? 8232) || (c =? 8233)
   || (c =? 8239) || (c =? 8287) || (c =? 12288))%N.

Fixpoint lstrip (s : pystr) : pystr :=
  match s with
  | [] => []
  | c :: s' => if isspace c then lstrip s' else s
  end.

Definition rstrip (s : pystr) : pystr := rev (lstrip (rev s)).

Definition strip (s : pystr) : pystr := rstrip (lstrip s).

(** ** Calendar dates ([datetime.date])

    A [date] is its proleptic Gregorian ordinal, 1 for 0001-01-01 up to
    [MAXORDINAL] for 9999-12-31. *)

Definition MAXORDINAL : Z := 3652059.

Definition valid_ordinal (o : Z) : bool := (1 <=? o) && (o <=? MAXORDINAL).

Record date : Type := mk_date {
  toordinal : Z;
  toordinal_valid : valid_ordinal toordinal = true
}.

Definition fromordinal (o : Z) : option date :=
  match decide (valid_ordinal o = true) with
  | left H => Some (mk_date o H)
  | right _ => None
  end.

(** [timedelta(days=d)]: the magnitude is limited to 999999999 days. *)
Definition timedelta (days : Z) : res Z :=
  if Z.abs days >? 999999999 then Raise OverflowError else Ok days.

(** [date + timedelta]: out of the calendar the addition raises
    [OverflowError]. *)
Definition date_add (dt : date) (delta : Z) : res date :=
  match fromordinal (toordinal dt + delta) with
  | Some d => Ok d
  | None => Raise OverflowError
  end.

Definition DAYS_IN_MONTH (m : Z) : Z :=
  if m =? 2 then 28
  else if (m =? 4) || (m =? 6) || (m =? 9) || (m =? 11) then 30
  else 31.

Definition DAYS_BEFORE_MONTH (m : Z) : Z :=
  nth (Z.to_nat m) [0; 0; 31; 59; 90; 120; 151; 181; 212; 243; 273; 304; 334] 0.

Definition b2z (b : bool) : Z := if b then 1 else 0.

(** Ordinal to (year, month, day), as [datetime._ord2ymd]. *)
Definition ord2ymd (ordinal : Z) : Z * Z * Z :=
  let n := ordinal - 1 in
  let n400 := n / 146097 in
  let n := n mod 146097 in
  let year := n400 * 400 + 1 in
  let n100 := n / 36524 in
  let n := n mod 36524 in
  let n4 := n / 1461 in
  let n := n mod 1461 in
  let n1 := n / 365 in
  let n := n mod 365 in
  let year := year + n100 * 100 + n4 * 4 + n1 in
  if (n1 =? 4) || (n100 =? 4) then (year - 1, 12, 31)
  else
    let leapyear := (n1 =? 3) && (negb (n4 =? 24) || (n100 =? 3)) in
    let month := Z.shiftr (n + 50) 5 in
    let preceding := DAYS_BEFORE_MONTH month + b2z ((month >? 2) && leapyear) in
    if preceding >? n then
      let month := month - 1 in
      let preceding :=
        preceding - (DAYS_IN_MONTH month + b2z ((month =? 2) && leapyear)) in
      (year, month, n - preceding + 1)
    else (year, month, n - preceding + 1).

(** ["%0<w>d" % z] for a non-negative [z]. *)
Definition zfill (w : nat) (z : Z) : pystr :=
  let s := str_of_Z z in
  repeat 48%N (w - length s) ++ s.

(** [str(date)], the ISO form YYYY-MM-DD. *)
Definition isoformat_ordinal (o : Z) : pystr :=
  let '(y, m, d) := ord2ymd o in
  zfill 4 y ++ lit "-" ++ zfill 2 m ++ lit "-" ++ zfill 2 d.

Definition isoformat (d : date) : pystr := isoformat_ordinal (toordinal d).

(** ** The post table

    One row of the table that [fetch_wp_posts] builds.  The fields are the
    columns 記事ID, タイトル, スラッグ, URL, ステータス, 公開日, 最終更新日 and
    文字数, in this order.  A cell holds a Python value: the value handed to
    the table constructor, or the float that the constructor made of it. *)
Record row : Type := mk_row {
  post_id : json;
  title : json;
  slug : json;
  URL : json;
  status : json;
  date_published : json;
  modified : json;
  char_count : Z
}.

(** A table is the list of its rows ([pd.DataFrame(rows)]). *)
Definition DataFrame : Type := list row.

Definition column_names : list pystr :=
  [ [35352; 20107; 73; 68]%N;
    [12479; 12452; 12488; 12523]%N;
    [12473; 12521; 12483; 12464]%N;
    lit "URL";
    [12473; 12486; 12540; 12479; 12473]%N;
    [20844; 38283; 26085]%N;
    [26368; 32066; 26356; 26032; 26085]%N;
    [25991; 23383; 25968]%N ].

(** [df.columns.tolist()]: a table built from no rows has no columns. *)
Definition columns (df : DataFrame) : list pystr :=
  match df with
  | [] => []
  | _ :: _ => column_names
  end.

(** ** [itertools.cycle]

    The iterator first drains the underlying iterator, saving each item,
    and then repeats the saved items forever.  [cycle_next] is one call of
    [next]; it raises [StopIteration] when there is nothing to repeat. *)
Section Cycle.
Context {A : Type}.

Record cycle_state : Type := mk_cycle {
  it : list A;
  saved : list A;
  index : nat
}.

Definition cycle (iterable : list A) : cycle_state :=
  {| it := iterable; saved := []; index := 0 |}.

Definition cycle_next (c : cycle_state) : res (A * cycle_state) :=
  match it c with
  | item :: rest =>
      Ok (item, {| it := rest; saved := saved c ++ [item]; index := index c |})
  | [] =>
      match List.nth_error (saved c) (index c) with
      | None => Raise StopIteration
      | Some item =>
          let index' := S (index c) in
          Ok (item, {| it := []; saved := saved c;
                       index := if (length (saved c) <=? index')%nat then 0%nat
                                else index' |})
      end
  end.
End Cycle.
Arguments cycle_state A : clear implicits.

(** A Python [for] loop over a list whose body may raise. *)
Fixpoint for_each {A S : Type} (xs : list A) (body : A -> S -> res unit * S) (s : S)
  : res unit * S :=
  match xs with
  | [] => (Ok tt, s)
  | x :: xs' =>
      match body x s with
      | (Ok _, s') => for_each xs' body s'
      | (Raise e, s') => (Raise e, s')
      end
  end.

(** [range(n)]: empty when [n] is not positive. *)
Definition range (n : Z) : list Z := List.map Z.of_nat (seq 0 (Z.to_nat n)).

(** ** Schedule generation: [generate_sns_schedule] *)

(** One schedule entry: the keys datetime, title, url and text. *)
Record entry : Type := mk_entry {
  rec_datetime : pystr;
  rec_title : json;
  rec_url : json;
  rec_text : pystr
}.

(** What the function mutates while it runs: the cycling iterator, the
    entries appended so far, and the prompts sent to the chat completion
    service (one per call, in order). *)
Record gen_state : Type := mk_gen_state {
  post_iter : cycle_state row;
  records : list entry;
  sent : list pystr
}.

Definition time_slots : list pystr := [lit "09:00"; lit "12:00"; lit "20:00"].

Definition polite : pystr := [19969; 23527]%N.

Definition tone_text (tone : pystr) : pystr :=
  if pystr_eqb tone polite
  then [19969; 23527; 12391; 33853; 12385; 30528; 12356; 12383; 12488; 12540; 12531]%N
  else [12459; 12472; 12517; 12450; 12523; 12391; 35242; 12375; 12415; 12420; 12377;
        12356; 12488; 12540; 12531]%N.

Definition newline : pystr := [10%N].

Section Schedule.
Variable py_repr : json -> pystr.
(** The clock: [datetime.today().date()]. *)
Variable today : date.
(** The chat completion service: the answer to call number [n] (counted
    from 0) with the given prompt.  [Some content] is the text of the
    first choice; [None] stands for any exception inside the [try]. *)
Variable chat : nat -> pystr -> option pystr.

Local Abbreviation str := (py_str py_repr).

Definition prompt (tone : pystr) (p : row) : pystr :=
  newline
  ++ [35352; 20107; 12479; 12452; 12488; 12523; 58; 32]%N ++ str (title p) ++ newline
  ++ lit "URL: " ++ str (URL p) ++ newline
  ++ [12488; 12540; 12531; 58; 32]%N ++ tone_text tone ++ newline
  ++ [33258; 28982; 12394; 32057; 20171; 25991; 65291; 51; 12388; 12398; 12495; 12483;
      12471; 12517; 12479; 12464]%N ++ newline.

Definition generation_error (p : row) : pystr :=
  [91; 65; 73; 29983; 25104; 12456; 12521; 12540; 93; 32]%N ++ str (title p).

Definition plain_text (p : row) : pystr := str (title p) ++ newline ++ str (URL p).

(** The body of the inner loop, for one time slot [t] of the day [dt]. *)
Definition slot_body (client : bool) (tone : pystr) (dt : date) (t : pystr)
    (st : gen_state) : res unit * gen_state :=
  match cycle_next (post_iter st) with
  | Raise e => (Raise e, st)
  | Ok (p, post_iter') =>
      let '(text, sent') :=
        if client then
          let request := prompt tone p in
          (match chat (length (sent st)) request with
           | Some content => strip content
           | None => generation_error p
           end, sent st ++ [request])
        else (plain_text p, sent st) in
      (Ok tt,
       {| post_iter := post_iter';
          records := records st ++
            [ {| rec_datetime := isoformat dt ++ lit " " ++ t;
                 rec_title := title p;
                 rec_url := URL p;
                 rec_text := text |} ];
          sent := sent' |})
  end.

(** The body of the outer loop, for day offset [d]. *)
Definition day_body (client : bool) (tone : pystr) (d : Z) (st : gen_state)
  : res unit * gen_state :=
  match delta ← timedelta d; date_add today delta with
  | Raise e => (Raise e, st)
  | Ok dt => for_each time_slots (slot_body client tone dt) st
  end.

(** [api_key] is a [str] or [None]; a client exists when it is truthy. *)
Definition has_client (api_key : option pystr) : bool :=
  match api_key with
  | Some (_ :: _) => true
  | _ => false
  end.

(** The function returns the table of the entries, or raises; the second
    component is the state it leaves behind. *)
Definition generate_sns_schedule (df : DataFrame) (days : Z) (tone : pystr)
    (api_key : option pystr) : res (list entry) * gen_state :=
  let client := has_client api_key in
  let st0 := {| post_iter := cycle df; records := []; sent := [] |} in
  match for_each (range days) (day_body client tone) st0 with
  | (Ok _, st) => (Ok (records st), st)
  | (Raise e, st) => (Raise e, st)
  end.
End Schedule.

(** ** Content fetch: [fetch_wp_posts] *)

(** What [requests.get] hands back, as far as the function looks at it:
    the status code, the body text, the outcome of [r.json()] and the
    X-WP-TotalPages header ([None] when the header is absent). *)
Record response : Type := mk_response {
  status_code : Z;
  text : pystr;
  json_body : res json;
  total_pages_header : option pystr
}.

(** Messages shown with [st.error]. *)
Inductive message : Type :=
| WPError (status : Z) (body : pystr)
| ExceptionMessage (e : exn)
| SheetsError (e : exn).

(** [all_posts.extend(posts)] iterates over [posts]: the items of a list,
    the keys of a dict, the characters of a string; other objects are not
    iterable. *)
Definition iterate (v : json) : res (list json) :=
  match v with
  | JArr items => Ok items
  | JObj fields => Ok (List.map (fun kv => JStr (fst kv)) fields)
  | JStr s => Ok (List.map (fun c => JStr [c]) s)
  | _ => Raise TypeError
  end.

(** How the [while True] loop is left. *)
Inductive loop_exit : Type :=
| Break (all_posts : list json)
| ReturnNone (status : Z) (body : pystr)
| Raised (e : exn).

Section Fetch.
(** [int(s)] on a header value; parsing is the interpreter's business. *)
Variable py_int : pystr -> res Z.
(** The remote site: the outcome of the request for page [page]. *)
Variable server : Z -> res response.

(** The pagination loop, started at [page] with [all_posts] accumulated.
    [fuel] bounds the number of requests; [None] means the bound was
    reached with the loop still running.  The second component of the
    result is the number of the last page requested. *)
Fixpoint pagination (fuel : nat) (page : Z) (all_posts : list json)
  : option (loop_exit * Z) :=
  match fuel with
  | O => None
  | S fuel' =>
      match server page with
      | Raise e => Some (Raised e, page)
      | Ok r =>
          if status_code r =? 400 then Some (Break all_posts, page)
          else if negb (status_code r =? 200)
          then Some (ReturnNone (status_code r) (text r), page)
          else
            match json_body r with
            | Raise e => Some (Raised e, page)
            | Ok posts =>
                if negb (truthy posts) then Some (Break all_posts, page)
                else
                  match iterate posts with
                  | Raise e => Some (Raised e, page)
                  | Ok items =>
                      let all_posts := all_posts ++ items in
                      match total_pages_header r with
                      | None => Some (Break all_posts, page)
                      | Some total_pages =>
                          match py_int total_pages with
                          | Raise e => Some (Raised e, page)
                          | Ok total =>
                              if page >=? total then Some (Break all_posts, page)
                              else pagination fuel' (page + 1) all_posts
                          end
                      end
                  end
            end
      end
  end.
End Fetch.

(** [re.sub(r"<[^>]+>", "", s)].  A match starts at a "<", runs over at
    least one character other than ">" and ends at the next ">".  The scan
    goes left to right; [skip] is the number of characters still to drop
    from the match being removed. *)
Fixpoint find_gt (s : pystr) : option nat :=
  match s with
  | [] => None
  | c :: s' => if (c =? 62)%N then Some 0%nat else S <$> find_gt s'
  end.

Fixpoint sub_tags (skip : nat) (s : pystr) : pystr :=
  match s with
  | [] => []
  | c :: s' =>
      match skip with
      | S k => sub_tags k s'
      | O =>
          if (c =? 60)%N then
            match find_gt s' with
            | Some (S j) => sub_tags (S (S j)) s'
            | _ => c :: sub_tags 0 s'
            end
          else c :: sub_tags 0 s'
      end
  end.

Definition re_sub_tags (s : pystr) : pystr := sub_tags 0 s.

(** The local helper [strip_html]: [html or ""], tags removed, then
    [strip()].  [re.sub] accepts only a string. *)
Definition strip_html (html : json) : res pystr :=
  match (if truthy html then html else JStr []) with
  | JStr s => Ok (strip (re_sub_tags s))
  | _ => Raise TypeError
  end.

(** The body of the loop over [all_posts]: one table row per post. *)
Definition make_row (p : json) : res row :=
  content ← py_get p (lit "content") (JObj []);
  content_html ← py_get content (lit "rendered") (JStr []);
  content_text ← strip_html content_html;
  let char_count := Z.of_nat (length content_text) in
  id ← py_get p (lit "id") JNull;
  title_obj ← py_get p (lit "title") (JObj []);
  title ← py_get title_obj (lit "rendered") (JStr []);
  slug ← py_get p (lit "slug") (JStr []);
  link ← py_get p (lit "link") (JStr []);
  status ← py_get p (lit "status") (JStr []);
  date ← py_get p (lit "date") (JStr []);
  modified ← py_get p (lit "modified") (JStr []);
  Ok {| post_id := id; title := title; slug := slug; URL := link; status := status;
        date_published := date; modified := modified; char_count := char_count |}.

Fixpoint build_rows (all_posts : list json) : res (list row) :=
  match all_posts with
  | [] => Ok []
  | p :: rest =>
      r ← make_row p;
      rows ← build_rows rest;
      Ok (r :: rows)
  end.

(** *** [pd.DataFrame(rows)]: the types of the columns

    The constructor looks at each column of the rows and gives it the
    narrowest type that holds all its values (the scan of
    [maybe_convert_objects]).  A column of integers with a missing value
    becomes a column of floats, the missing value NaN; a column that holds a
    string, a list or a dict stays as it is. *)

(** [float(z)] for an [int]: rounded to the nearest float, ties to even;
    [OverflowError] beyond the range of a float. *)
Definition float_of_magnitude (a : Z) : float :=
  let n := Z.log2 a + 1 in
  if n <=? 62 then PrimFloat.of_uint63 (Uint63.of_Z a)
  else
    let sh := n - 62 in
    let q := Z.shiftr a sh in
    let sticky := if a mod 2 ^ sh =? 0 then 0 else 1 in
    Z.ldexp (PrimFloat.of_uint63 (Uint63.of_Z (2 * q + sticky))) (sh - 1).

Definition float_of_int (z : Z) : res float :=
  let f := float_of_magnitude (Z.abs z) in
  if PrimFloat.is_infinity f then Raise OverflowError
  else Ok (if z <? 0 then PrimFloat.opp f else f).

Definition INT64_MIN : Z := - 2 ^ 63.
Definition INT64_MAX : Z := 2 ^ 63 - 1.
Definition UINT64_MAX : Z := 2 ^ 64 - 1.

(** What the scan has met so far. *)
Record Seen : Type := mk_seen {
  null_ : bool;
  nan_ : bool;
  bool_ : bool;
  float_ : bool;
  int_ : bool;
  uint_ : bool;
  sint_ : bool;
  object_ : bool
}.

Definition nothing_seen : Seen :=
  {| null_ := false; nan_ := false; bool_ := false; float_ := false; int_ := false;
     uint_ := false; sint_ := false; object_ := false |}.

(** The loop over the values of a column.  It stops at the first string,
    list or dict, and at an integer that no 64-bit type holds; every
    integer met is converted to a float on the way, which can raise. *)
Fixpoint scan_column (values : list json) (seen : Seen) : res Seen :=
  match values with
  | [] => Ok seen
  | val :: rest =>
      match val with
      | JNull =>
          scan_column rest
            {| null_ := true; nan_ := nan_ seen; bool_ := bool_ seen; float_ := float_ seen;
               int_ := int_ seen; uint_ := uint_ seen; sint_ := sint_ seen;
               object_ := object_ seen |}
      | JFloat f =>
          if PrimFloat.is_nan f then
            scan_column rest
              {| null_ := null_ seen; nan_ := true; bool_ := bool_ seen;
                 float_ := float_ seen; int_ := int_ seen; uint_ := uint_ seen;
                 sint_ := sint_ seen; object_ := object_ seen |}
          else
            scan_column rest
              {| null_ := null_ seen; nan_ := nan_ seen; bool_ := bool_ seen;
                 float_ := true; int_ := int_ seen; uint_ := uint_ seen;
                 sint_ := sint_ seen; object_ := object_ seen |}
      | JBool _ =>
          scan_column rest
            {| null_ := null_ seen; nan_ := nan_ seen; bool_ := true; float_ := float_ seen;
               int_ := int_ seen; uint_ := uint_ seen; sint_ := sint_ seen;
               object_ := object_ seen |}
      | JInt z =>
          match float_of_int z with
          | Raise e => Raise e
          | Ok _ =>
              if null_ seen then
                scan_column rest
                  {| null_ := true; nan_ := nan_ seen; bool_ := bool_ seen;
                     float_ := float_ seen; int_ := true; uint_ := uint_ seen;
                     sint_ := sint_ seen; object_ := object_ seen |}
              else
                let sint := sint_ seen || (INT64_MIN <=? z) && (z <? 0) in
                let uint := uint_ seen || (INT64_MAX <? z) && (z <=? UINT64_MAX) in
                let seen' :=
                  {| null_ := false; nan_ := nan_ seen; bool_ := bool_ seen;
                     float_ := float_ seen; int_ := true; uint_ := uint; sint_ := sint;
                     object_ := object_ seen |} in
                if uint && sint || (UINT64_MAX <? z) || (z <? INT64_MIN) then
                  Ok {| null_ := false; nan_ := nan_ seen; bool_ := bool_ seen;
                        float_ := float_ seen; int_ := true; uint_ := uint; sint_ := sint;
                        object_ := true |}
                else scan_column rest seen'
          end
      | JStr _ | JArr _ | JObj _ =>
          Ok {| null_ := null_ seen; nan_ := nan_ seen; bool_ := bool_ seen;
                float_ := float_ seen; int_ := int_ seen; uint_ := uint_ seen;
                sint_ := sint_ seen; object_ := true |}
      end
  end.

(** The type that a column gets. *)
Inductive dtype : Type :=
| object_dtype
| bool_dtype
| int64_dtype
| uint64_dtype
| float64_dtype.

(** The decision after the scan. *)
Definition result_dtype (seen : Seen) : dtype :=
  if bool_ seen then
    if negb (float_ seen || int_ seen || object_ seen || nan_ seen || null_ seen)
    then bool_dtype else object_dtype
  else if object_ seen then object_dtype
  else if null_ seen || nan_ seen then
    if float_ seen || int_ seen || nan_ seen then float64_dtype else object_dtype
  else if float_ seen then float64_dtype
  else if int_ seen then (if uint_ seen then uint64_dtype else int64_dtype)
  else object_dtype.

Definition maybe_convert_objects (values : list json) : res dtype :=
  seen ← scan_column values nothing_seen; Ok (result_dtype seen).

(** A cell of a column of the given type: in a column of floats an integer
    is its float and a missing value is NaN; in the other columns the
    value is kept. *)
Definition cell_as (dt : dtype) (v : json) : json :=
  match dt, v with
  | float64_dtype, JInt z =>
      JFloat match float_of_int z with
             | Ok f => f
             | Raise _ => PrimFloat.infinity
             end
  | float64_dtype, JNull => JFloat PrimFloat.nan
  | _, _ => v
  end.

(** A row with its cells as the types of the seven columns make them.  The
    column of character counts holds integers counted by [len] and stays a
    column of integers. *)
Definition row_as (dt_id dt_title dt_slug dt_url dt_status dt_date dt_modified : dtype)
    (r : row) : row :=
  {| post_id := cell_as dt_id (post_id r);
     title := cell_as dt_title (title r);
     slug := cell_as dt_slug (slug r);
     URL := cell_as dt_url (URL r);
     status := cell_as dt_status (status r);
     date_published := cell_as dt_date (date_published r);
     modified := cell_as dt_modified (modified r);
     char_count := char_count r |}.

(** The table made from the rows. *)
Definition pd_DataFrame (rows : list row) : res DataFrame :=
  dt_id ← maybe_convert_objects (List.map post_id rows);
  dt_title ← maybe_convert_objects (List.map title rows);
  dt_slug ← maybe_convert_objects (List.map slug rows);
  dt_url ← maybe_convert_objects (List.map URL rows);
  dt_status ← maybe_convert_objects (List.map status rows);
  dt_date ← maybe_convert_objects (List.map date_published rows);
  dt_modified ← maybe_convert_objects (List.map modified rows);
  Ok (List.map (row_as dt_id dt_title dt_slug dt_url dt_status dt_date dt_modified) rows).

(** The whole function: [Some df] is the table, [None] the failure signal;
    the second component lists the messages shown to the user.  The outer
    [option] is [None] only when [fuel] requests did not end the loop. *)
Definition fetch_wp_posts (py_int : pystr -> res Z) (server : Z -> res response)
    (fuel : nat) : option (option DataFrame * list message) :=
  match pagination py_int server fuel 1 [] with
  | None => None
  | Some (ReturnNone code body, _) => Some (None, [WPError code body])
  | Some (Raised e, _) => Some (None, [ExceptionMessage e])
  | Some (Break all_posts, _) =>
      match rows ← build_rows all_posts; pd_DataFrame rows with
      | Ok df => Some (Some df, [])
      | Raise e => Some (None, [ExceptionMessage e])
      end
  end.

(** ** Spreadsheet sync: [write_to_sheets] *)

(** A worksheet is the grid of its cell texts, row by row; a spreadsheet
    maps worksheet titles to grids; the service maps spreadsheet keys to
    spreadsheets. *)
Definition grid : Type := list (list pystr).

Abbreviation spreadsheet := (gmap pystr grid).
Abbreviation sheets_service := (gmap pystr (gmap pystr grid)).

(** The calls that [write_to_sheets] makes, in the order of the source. *)
Inductive api_call : Type :=
| ReadSecrets
| FromServiceAccountInfo
| Authorize
| OpenByKey
| GetWorksheet
| AddWorksheet
| Clear
| Update.

(** Writing a block of values with its top left corner at A1: cells
    outside the block keep their text. *)
Fixpoint overlay_row (new old : list pystr) : list pystr :=
  match new, old with
  | [], _ => old
  | c :: new', [] => c :: overlay_row new' []
  | c :: new', _ :: old' => c :: overlay_row new' old'
  end.

Fixpoint overlay (new old : grid) : grid :=
  match new, old with
  | [], _ => old
  | r :: new', [] => overlay_row r [] :: overlay new' []
  | r :: new', o :: old' => overlay_row r o :: overlay new' old'
  end.

(** Reading a worksheet back ([get_all_values]). *)
Definition read_worksheet (svc : sheets_service) (sheet_id worksheet_name : pystr)
  : option grid :=
  sh ← svc !! sheet_id; sh !! worksheet_name.

Section Sheets.
Variable py_repr : json -> pystr.
(** Which calls fail (bad credential, network error, quota, ...).  A call
    that fails changes nothing in the service. *)
Variable fails : api_call -> bool.

Local Abbreviation str := (py_str py_repr).

(** One row of [df.astype(str).values.tolist()]. *)
Definition row_as_str (r : row) : list pystr :=
  [ str (post_id r); str (title r); str (slug r); str (URL r); str (status r);
    str (date_published r); str (modified r); str_of_Z (char_count r) ].

(** The block handed to [ws.update]: the header row, then the data rows. *)
Definition sheet_values (df : DataFrame) : grid :=
  [columns df] ++ List.map row_as_str df.

(** A service call that raises [APIError] when the environment makes it
    fail. *)
Definition call {A : Type} (c : api_call) (a : res A) : res A :=
  if fails c then Raise APIError else a.

(** [gc.open_by_key]: the spreadsheet has to exist. *)
Definition open_by_key (svc : sheets_service) (sheet_id : pystr) : res spreadsheet :=
  call OpenByKey
    match svc !! sheet_id with
    | Some sh => Ok sh
    | None => Raise APIError
    end.

(** [sh.worksheet]: the worksheet has to exist. *)
Definition worksheet (sh : spreadsheet) (worksheet_name : pystr) : res grid :=
  call GetWorksheet
    match sh !! worksheet_name with
    | Some ws => Ok ws
    | None => Raise KeyError
    end.

(** [sh.add_worksheet]: a new, empty worksheet; the title has to be free. *)
Definition add_worksheet (sh : spreadsheet) (worksheet_name : pystr) : res spreadsheet :=
  call AddWorksheet
    match sh !! worksheet_name with
    | Some _ => Raise APIError
    | None => Ok (<[worksheet_name := []]> sh)
    end.

(** [ws.clear()]: every cell of the worksheet is emptied. *)
Definition clear (sh : spreadsheet) (worksheet_name : pystr) : res spreadsheet :=
  call Clear (Ok (<[worksheet_name := []]> sh)).

(** [ws.update("A1", values)]: the block is written over what the
    worksheet holds. *)
Definition update (sh : spreadsheet) (worksheet_name : pystr) (values : grid)
  : res spreadsheet :=
  call Update
    match sh !! worksheet_name with
    | Some old => Ok (<[worksheet_name := overlay values old]> sh)
    | None => Raise APIError
    end.

(** The function returns [True] or [False]; the other components are the
    service as the call leaves it and the messages shown. *)
Definition write_to_sheets (svc : sheets_service) (df : DataFrame)
    (sheet_id worksheet_name : pystr) : bool * sheets_service * list message :=
  let failed e svc' := (false, svc', [SheetsError e]) in
  match
    _ ← call ReadSecrets (Ok tt);
    _ ← call FromServiceAccountInfo (Ok tt);
    _ ← call Authorize (Ok tt);
    open_by_key svc sheet_id
  with
  | Raise e => failed e svc
  | Ok sh =>
      (* try: ws = sh.worksheet(...)  except: ws = sh.add_worksheet(...) *)
      match
        match worksheet sh worksheet_name with
        | Ok _ => Ok sh
        | Raise _ => add_worksheet sh worksheet_name
        end
      with
      | Raise e => failed e svc
      | Ok sh1 =>
          match clear sh1 worksheet_name with
          | Raise e => failed e (<[sheet_id := sh1]> svc)
          | Ok sh2 =>
              match update sh2 worksheet_name (sheet_values df) with
              | Raise e => failed e (<[sheet_id := sh2]> svc)
              | Ok sh3 => (true, <[sheet_id := sh3]> svc, [])
              end
          end
      end
  end.
End Sheets.

(** ** Identity gate: [verify_firebase_token] *)

(** The claim set of a token: the payload object. *)
Definition claims : Type := list (pystr * json).

Section Token.
(** The token parser of the JWT library: the payload of a well-formed
    token (three base64url segments, a JSON object as payload), [None] for
    anything else. *)
Variable load : pystr -> option claims.
(** Whether the signature of a token verifies under the provider's keys. *)
Variable signature_valid : pystr -> bool.
(** The clock, in seconds since the epoch. *)
Variable now : Z.

Definition expired (payload : claims) : bool :=
  match dict_get payload (lit "exp") JNull with
  | JInt exp => exp <=? now
  | _ => false
  end.

Definition issued_by (issuer : pystr) (payload : claims) : bool :=
  match dict_get payload (lit "iss") JNull with
  | JStr iss => pystr_eqb iss issuer
  | _ => false
  end.

(** [jwt.decode(token, options={"verify_signature": ...}, issuer=...)].
    The signature and the registered claims are examined only when
    [verify_signature] is set; the library switches the claim checks off
    together with the signature check. *)
Definition jwt_decode (token : pystr) (verify_signature : bool) (issuer : option pystr)
  : res claims :=
  match load token with
  | None => Raise DecodeError
  | Some payload =>
      if verify_signature then
        if negb (signature_valid token) then Raise InvalidSignatureError
        else if expired payload then Raise ExpiredSignatureError
        else
          match issuer with
          | Some iss => if issued_by iss payload then Ok payload else Raise InvalidIssuerError
          | None => Ok payload
          end
      else Ok payload
  end.

(** [id_token] is a [str] or [None]; the result is the decoded claim set or
    [None]. *)
Definition verify_firebase_token (id_token : option pystr) : option claims :=
  match id_token with
  | None => None
  | Some [] => None
  | Some token =>
      match jwt_decode token false None with
      | Ok decoded => Some decoded
      | Raise _ => None
      end
  end.
End Token.

(** ** Reference points for the proofs *)

(** The iterator after [k] calls of [next] on [cycle l]. *)
Definition cycle_after {A : Type} (l : list A) (k : nat) : cycle_state A :=
  if (k <? length l)%nat
  then {| it := skipn k l; saved := firstn k l; index := 0 |}
  else {| it := []; saved := l; index := (k mod length l)%nat |}.


Section ScheduleReference.
Variable py_repr : json -> pystr.
Variable today : date.
Variable chat : nat -> pystr -> option pystr.
Variables (df : DataFrame) (client : bool) (tone : pystr).

Definition blank_row : row :=
  {| post_id := JNull; title := JNull; slug := JNull; URL := JNull; status := JNull;
     date_published := JNull; modified := JNull; char_count := 0 |}.

(** The post that entry number [i] is about. *)
Definition post_at (i : nat) : row := nth (i mod length df) df blank_row.

(** Entry number [i] of the schedule, counted from 0: day [i / 3], time
    slot [i mod 3]. *)
Definition entry_at (i : nat) : entry :=
  let p := post_at i in
  {| rec_datetime :=
       isoformat_ordinal (toordinal today + Z.of_nat (i / 3))
       ++ lit " " ++ nth (i mod 3) time_slots [];
     rec_title := title p;
     rec_url := URL p;
     rec_text :=
       if client then
         match chat i (prompt py_repr tone p) with
         | Some content => strip content
         | None => generation_error py_repr p
         end
       else plain_text py_repr p |}.

(** The state of the function after [k] entries. *)
Definition state_after (k : nat) : gen_state :=
  {| post_iter := cycle_after df k;
     records := List.map entry_at (seq 0 k);
     sent := if client then List.map (fun i => prompt py_repr tone (post_at i)) (seq 0 k)
             else [] |}.
End ScheduleReference.

(** ** Sample inputs *)

Definition sample_repr (v : json) : pystr := lit "<object>".

(** 2026-11-04. *)
Definition sample_today : date := mk_date 739924 eq_refl.

Definition sample_chat (n : nat) (request : pystr) : option pystr :=
  if Nat.even n then Some (lit " a caption #x #y #z ") else None.

Definition sample_post (n : Z) (name link : string) : row :=
  {| post_id := JInt n; title := JStr (lit name); slug := JStr (lit name);
     URL := JStr (lit link); status := JStr (lit "publish");
     date_published := JStr (lit "2026-10-01T09:00:00");
     modified := JStr (lit "2026-10-02T09:00:00"); char_count := 120 |}.

Definition sample_posts : DataFrame :=
  [ sample_post 11 "first" "https://blog.example/first";
    sample_post 12 "second" "https://blog.example/second" ].

(** [int] on a string of ASCII digits, where it agrees with Python's
    [int]; used for the sample sites. *)
Fixpoint digits_value (acc : Z) (s : pystr) : res Z :=
  match s with
  | [] => Ok acc
  | c :: s' =>
      if ((48 <=? c) && (c <=? 57))%N
      then digits_value (10 * acc + Z.of_N (c - 48)) s'
      else Raise ValueError
  end.

Definition ascii_int (s : pystr) : res Z :=
  match s with
  | [] => Raise ValueError
  | _ => digits_value 0 s
  end.

Section FetchReference.
Variable py_int : pystr -> res Z.
Variable server : Z -> res response.

(** The three conditions on the response to the request for [page] under
    which the specification lets the loop end: a bad-request status, an
    empty page, and a page number that has reached the advertised total. *)
Definition stops_paging (page : Z) (r : response) : Prop :=
  status_code r = 400
  \/ (exists posts, json_body r = Ok posts /\ truthy posts = false)
  \/ (exists total_pages total,
        total_pages_header r = Some total_pages
        /\ py_int total_pages = Ok total
        /\ total <= page).

(** A response after which the loop goes on to the next page. *)
Definition continues_paging (page : Z) (r : response) : Prop :=
  status_code r = 200
  /\ exists posts items total_pages total,
       json_body r = Ok posts /\ truthy posts = true /\ iterate posts = Ok items
       /\ total_pages_header r = Some total_pages
       /\ py_int total_pages = Ok total
       /\ page < total.

(** The items of the page that answers request [page]. *)
Definition page_items (page : Z) : list json :=
  match server page with
  | Ok r =>
      match posts ← json_body r; iterate posts with
      | Ok items => items
      | Raise _ => []
      end
  | Raise _ => []
  end.

(** The posts accumulated over the pages 1 to [n]. *)
Fixpoint accumulated (n : nat) : list json :=
  match n with
  | O => []
  | S m => accumulated m ++ page_items (Z.of_nat (S m))
  end.
End FetchReference.

(** [p.get("content", {}).get("rendered", "")]. *)
Definition rendered_content (p : json) : res json :=
  content ← py_get p (lit "content") (JObj []);
  py_get content (lit "rendered") (JStr []).

(** The count that the specification words describe: the length of the
    content with the tags removed and nothing else done. *)
Definition tags_removed_length (s : pystr) : Z := Z.of_nat (length (re_sub_tags s)).

Definition wp_post (id : Z) (name : string) (html : pystr) : json :=
  JObj [ (lit "id", JInt id);
         (lit "title", JObj [(lit "rendered", JStr (lit name))]);
         (lit "slug", JStr (lit name));
         (lit "link", JStr (lit "https://blog.example/" ++ lit name));
         (lit "status", JStr (lit "publish"));
         (lit "date", JStr (lit "2026-10-01T09:00:00"));
         (lit "modified", JStr (lit "2026-10-02T09:00:00"));
         (lit "content", JObj [(lit "rendered", JStr html); (lit "protected", JBool false)]) ].

Definition ok_page (posts : list json) (total : string) : res response :=
  Ok {| status_code := 200; text := lit "[...]"; json_body := Ok (JArr posts);
        total_pages_header := Some (lit total) |}.

Definition error_page (code : Z) (body : string) : res response :=
  Ok {| status_code := code; text := lit body; json_body := Ok (JObj [(lit "code", JStr (lit body))]);
        total_pages_header := None |}.

(** A site with two pages of posts that answers 400 past the last page but
    advertises three pages. *)
Definition sample_server (page : Z) : res response :=
  if page =? 1 then
    ok_page [wp_post 1 "first" (lit "<p>Hi</p>" ++ newline);
             wp_post 2 "second" (lit "<p>Tom &amp; Jerry</p><script>x=1</script>")] "3"
  else if page =? 2 then ok_page [wp_post 3 "third" (lit "  <h1>a</h1> b ")] "3"
  else error_page 400 "rest_post_invalid_page_number".


(** A site that fails on its second page. *)
Definition failing_server (page : Z) : res response :=
  if page =? 1 then ok_page [wp_post 1 "first" (lit "<p>Hi</p>")] "2"
  else error_page 500 "internal error".


(** A service with one spreadsheet holding one worksheet with old text. *)
Definition sample_service : sheets_service :=
  {[ lit "sheet-1" :=
       {[ lit "WP_Posts" := [[lit "old"; lit "header"; lit "x"]; [lit "old"; lit "row"]] ]} ]}.

Definition no_failure (c : api_call) : bool := false.

Definition update_fails (c : api_call) : bool :=
  match c with
  | Update => true
  | _ => false
  end.

(** A token with header {"alg":"RS256"}, payload {"sub":"u1","exp":100}
    and a signature that no key made. *)
Definition sample_token : pystr :=
  lit "eyJhbGciOiJSUzI1NiJ9.eyJzdWIiOiJ1MSIsImV4cCI6MTAwfQ.AAAA".

Definition sample_load (token : pystr) : option claims :=
  if pystr_eqb token sample_token
  then Some [(lit "sub", JStr (lit "u1")); (lit "exp", JInt 100)]
  else None.

Definition sample_signature_valid (token : pystr) : bool := false.

(** 2026-11-04T00:00:00Z. *)
Definition sample_now : Z := 1793750400.

(** The pattern [<[^>]+>] read as a relation: a match is a "<", a
    non-empty run of characters other than ">", and a ">".  [removes_tags s
    out] holds when [out] is [s] with the matches met in a left to right
    scan removed. *)
Definition tag_body (body : pystr) : Prop :=
  body <> [] /\ forall c, In c body -> c <> 62%N.

Definition tag_prefix (s : pystr) : Prop :=
  exists body rest, tag_body body /\ s = 60%N :: body ++ 62%N :: rest.

Inductive removes_tags : pystr -> pystr -> Prop :=
| removes_nil : removes_tags [] []
| removes_tag (body rest out : pystr) :
    tag_body body ->
    removes_tags rest out ->
    removes_tags (60%N :: body ++ 62%N :: rest) out
| removes_char (c : N) (rest out : pystr) :
    ~ tag_prefix (c :: rest) ->
    removes_tags rest out ->
    removes_tags (c :: rest) (c :: out).

(** ** Configuration, login screen and entry point *)

(** What the script puts on the page, as far as the flow of control
    decides it.  The texts are those of the source: the configuration file
    is not found, the configuration could not be read, the hint that a new
    tab opens, posts have to be fetched first, and the two success
    notices. *)
Inductive widget : Type :=
| ConfigNotFoundError
| LoginHeading
| LoginPrompt
| ConfigNotLoadedError
| LoginInfo
| LinkButton (label url : pystr)
| ErrorShown (m : message)
| NeedPostsInfo
| FetchSuccess
| ShowTable (df : DataFrame)
| SheetsSuccess
| DownloadButton (file_name : pystr) (schedule : list entry).

(** [load_firebase_config].  [file] is [None] when static/firebase_config.json
    does not exist, and otherwise the outcome of opening and parsing it.
    The Python [None] is [JNull]. *)
Definition load_firebase_config (file : option (res json)) : res json * list widget :=
  match file with
  | None => (Ok JNull, [ConfigNotFoundError])
  | Some (Ok config) => (Ok config, [])
  | Some (Raise e) => (Raise e, [])
  end.

Definition login_label : pystr := lit "Google " ++ [12391; 12525; 12464; 12452; 12531]%N.

(** [show_login_screen], reading the module-level [firebase_config]. *)
Definition show_login_screen (firebase_config : json) : list widget :=
  [LoginHeading; LoginPrompt]
  ++ match firebase_config with
     | JNull => [ConfigNotLoadedError]
     | _ => [LoginInfo; LinkButton login_label (lit "static/auth.html")]
     end.

(** What the script ends up showing. *)
Inductive screen : Type :=
| LoginScreen (widgets : list widget)
| MainApp (user : claims)
| Crashed (e : exn).

Section Entry.
Variable load : pystr -> option claims.
Variable signature_valid : pystr -> bool.
Variable now : Z.

(** The module-level flow: the configuration is loaded, then the token of
    the query string decides between the login screen and the tool.
    [token] is [params.get("token")]. *)
Definition app_entry (file : option (res json)) (token : option pystr) : screen :=
  match load_firebase_config file with
  | (Raise e, _) => Crashed e
  | (Ok firebase_config, shown) =>
      match token with
      | None | Some [] => LoginScreen (shown ++ show_login_screen firebase_config)
      | Some _ =>
          match verify_firebase_token load signature_valid now token with
          | None | Some [] => LoginScreen (shown ++ show_login_screen firebase_config)
          | Some user => MainApp user
          end
      end
  end.
End Entry.

(** ** The three tabs of [show_main_app] *)

(** [st.session_state]: the only key the script uses is "posts". *)
Record session_state : Type := mk_session {
  session_posts : option DataFrame
}.

Section Tabs.
Variable py_repr : json -> pystr.

(** The label of the sidebar: the e-mail claim, or a fixed word. *)
Definition sidebar_label (user : claims) : pystr :=
  [12525; 12464; 12452; 12531; 20013; 58; 32]%N
  ++ py_str py_repr (dict_get user (lit "email") (JStr [12518; 12540; 12470; 12540]%N)).

(** Tab 1 with its button pressed.  [None] when the fetch does not come
    back within [fuel] requests. *)
Definition on_fetch (py_int : pystr -> res Z) (server : Z -> res response) (fuel : nat)
    (s : session_state) : option (session_state * list widget) :=
  match fetch_wp_posts py_int server fuel with
  | None => None
  | Some (Some df, msgs) =>
      Some ({| session_posts := Some df |},
            List.map ErrorShown msgs ++ [FetchSuccess; ShowTable df])
  | Some (None, msgs) => Some (s, List.map ErrorShown msgs)
  end.

(** Tab 2 with its button pressed; without posts in the session the tab
    shows only the hint. *)
Definition on_write (fails : api_call -> bool) (svc : sheets_service) (s : session_state)
    (sheet_id worksheet_name : pystr) : sheets_service * list widget :=
  match session_posts s with
  | None => (svc, [NeedPostsInfo])
  | Some df =>
      match write_to_sheets py_repr fails svc df sheet_id worksheet_name with
      | (ok, svc', msgs) =>
          (svc', List.map ErrorShown msgs ++ if ok then [SheetsSuccess] else [])
      end
  end.

(** Tab 3 with its button pressed.  An exception of
    [generate_sns_schedule] is not caught here.  The download carries the
    schedule; its rendering as CSV bytes is left out. *)
Definition on_generate (today : date) (chat : nat -> pystr -> option pystr)
    (s : session_state) (days : Z) (tone : pystr) (api_key : option pystr)
  : res (list widget) :=
  match session_posts s with
  | None => Ok [NeedPostsInfo]
  | Some df =>
      match fst (generate_sns_schedule py_repr today chat df days tone api_key) with
      | Ok df_csv => Ok [DownloadButton (lit "sns.csv") df_csv]
      | Raise e => Raise e
      end
  end.
End Tabs.

(** One press of the fetch button: the site it meets and the number of
    requests allowed. *)
Record fetch_press : Type := mk_fetch_press {
  press_int : pystr -> res Z;
  press_server : Z -> res response;
  press_fuel : nat
}.

(** The session after a sequence of presses of the fetch button. *)
Fixpoint after_fetches (presses : list fetch_press) (s : session_state)
  : option session_state :=
  match presses with
  | [] => Some s
  | p :: presses' =>
      match on_fetch (press_int p) (press_server p) (press_fuel p) s with
      | Some (s', _) => after_fetches presses' s'
      | None => None
      end
  end.

(** What a press fetched: a table, or nothing when the fetch failed or did
    not come back. *)
Definition fetched (p : fetch_press) : option DataFrame :=
  match fetch_wp_posts (press_int p) (press_server p) (press_fuel p) with
  | Some (Some df, _) => Some df
  | _ => None
  end.

(** ** Further reference points *)

(** A tag match somewhere in a string. *)
Definition contains_tag (s : pystr) : Prop :=
  exists before rest, s = before ++ rest /\ tag_prefix rest.

(** The row that [make_row] builds from the fields of a post object. *)
Definition row_of_fields (fields : list (pystr * json)) (r : row) : Prop :=
  post_id r = dict_get fields (lit "id") JNull
  /\ (exists title_obj,
        dict_get fields (lit "title") (JObj []) = JObj title_obj
        /\ title r = dict_get title_obj (lit "rendered") (JStr []))
  /\ slug r = dict_get fields (lit "slug") (JStr [])
  /\ URL r = dict_get fields (lit "link") (JStr [])
  /\ status r = dict_get fields (lit "status") (JStr [])
  /\ date_published r = dict_get fields (lit "date") (JStr [])
  /\ modified r = dict_get fields (lit "modified") (JStr []).

(** The ways in which the work on the response to one page raises. *)
Definition page_raises (py_int : pystr -> res Z) (server : Z -> res response) (page : Z)
    (e : exn) : Prop :=
  server page = Raise e
  \/ exists r,
       server page = Ok r /\ status_code r = 200
       /\ (json_body r = Raise e
           \/ exists posts,
                json_body r = Ok posts /\ truthy posts = true
                /\ (iterate posts = Raise e
                    \/ exists items total_pages,
                         iterate posts = Ok items
                         /\ total_pages_header r = Some total_pages
                         /\ py_int total_pages = Raise e)).

(** More sample sites. *)
Definition empty_server (page : Z) : res response := ok_page [] "0".

Definition not_json_server (page : Z) : res response :=
  if page =? 1 then ok_page [wp_post 1 "first" (lit "<p>Hi</p>")] "2"
  else Ok {| status_code := 200; text := lit "<html>"; json_body := Raise JSONDecodeError;
             total_pages_header := None |}.

Definition headerless_server (page : Z) : res response :=
  Ok {| status_code := 200; text := lit "[...]";
        json_body := Ok (JArr [wp_post page "post" (lit "<p>Hi</p>")]);
        total_pages_header := None |}.

Definition clear_fails (c : api_call) : bool :=
  match c with
  | Clear => true
  | _ => false
  end.

Definition open_fails (c : api_call) : bool :=
  match c with
  | OpenByKey => true
  | _ => false
  end.



(** An id that is missing or a 64-bit integer. *)
Definition plain_id (v : json) : bool :=
  match v with
  | JNull => true
  | JInt z => (INT64_MIN <=? z) && (z <=? INT64_MAX)
  | _ => false
  end.

(** A site whose second post has no id. *)
Definition missing_id_server (page : Z) : res response :=
  ok_page [ wp_post 1 "first" (lit "<p>Hi</p>");
            JObj [ (lit "title", JObj [(lit "rendered", JStr (lit "second"))]);
                   (lit "content", JObj [(lit "rendered", JStr (lit "<p>Ho</p>"))]) ] ] "1".

(** [repr] of the two floats that the sample needs. *)
Definition float_repr_sample (v : json) : pystr :=
  match v with
  | JFloat f => if PrimFloat.is_nan f then lit "nan"
                else if PrimFloat.eqb f 1 then lit "1.0" else lit "<float>"
  | _ => lit "<object>"
  end.

(** A table row against the row it was made from: string cells and the
    character count are kept. *)
Definition keeps_text (r t : row) : Prop :=
  (forall s, post_id r = JStr s -> post_id t = JStr s)
  /\ (forall s, title r = JStr s -> title t = JStr s)
  /\ (forall s, slug r = JStr s -> slug t = JStr s)
  /\ (forall s, URL r = JStr s -> URL t = JStr s)
  /\ (forall s, status r = JStr s -> status t = JStr s)
  /\ (forall s, date_published r = JStr s -> date_published t = JStr s)
  /\ (forall s, modified r = JStr s -> modified t = JStr s)
  /\ char_count t = char_count r.

(** The id of a table row when the column of ids has become floats. *)
Definition id_is_float (r t : row) : Prop :=
  (post_id r = JNull -> post_id t = JFloat PrimFloat.nan)
  /\ (forall z, post_id r = JInt z ->
                exists f, float_of_int z = Ok f /\ post_id t = JFloat f).

Definition is_null (v : json) : bool := match v with JNull => true | _ => false end.
Definition is_int (v : json) : bool := match v with JInt _ => true | _ => false end.

(** What the specification expects to read back from the worksheet: the
    header row with the eight column names, then one row per table row
    with every cell as text.  Written out here on its own, to be compared
    with what [write_to_sheets] sends. *)
Definition text_of (py_repr : json -> pystr) (v : json) : pystr :=
  match v with
  | JStr s => s
  | JInt z => lit (NilZero.string_of_int (Z.to_int z))
  | JNull => lit "None"
  | JBool b => if b then lit "True" else lit "False"
  | JFloat _ | JArr _ | JObj _ => py_repr v
  end.

Definition expected_header (df : DataFrame) : list pystr :=
  match df with
  | [] => []
  | _ :: _ =>
      [ [35352; 20107; 73; 68]%N;
        [12479; 12452; 12488; 12523]%N;
        [12473; 12521; 12483; 12464]%N;
        [85; 82; 76]%N;
        [12473; 12486; 12540; 12479; 12473]%N;
        [20844; 38283; 26085]%N;
        [26368; 32066; 26356; 26032; 26085]%N;
        [25991; 23383; 25968]%N ]
  end.

Definition expected_sheet (py_repr : json -> pystr) (df : DataFrame) : grid :=
  expected_header df
  :: List.map
       (fun r =>
          [ text_of py_repr (post_id r); text_of py_repr (title r);
            text_of py_repr (slug r); text_of py_repr (URL r);
            text_of py_repr (status r); text_of py_repr (date_published r);
            text_of py_repr (modified r);
            lit (NilZero.string_of_int (Z.to_int (char_count r))) ])
       df.
(** * Properties *)

(** ** Sanity checks of the value model *)

Example str_of_Z_neg : str_of_Z (-42) = lit "-42".
Proof. reflexivity. Qed.

Example strip_example : strip (lit "  a b  ") = lit "a b".
Proof. reflexivity. Qed.

Example isspace_table :
  List.map isspace [9; 13; 14; 27; 28; 32; 33; 133; 160; 5760; 8192; 8202; 8203; 8232; 8239;
                    8287; 12288; 12289]%N
  = [true; true; false; false; true; true; false; true; true; true; true; true; false; true;
     true; true; true; false].
Proof. reflexivity. Qed.

Example strip_ideographic_space : strip [12288; 65; 10]%N = [65]%N.
Proof. reflexivity. Qed.

Example isoformat_2026_11_04 : isoformat_ordinal 739924 = lit "2026-11-04".
Proof. reflexivity. Qed.

Example isoformat_leap_day : isoformat_ordinal 738945 = lit "2024-02-29".
Proof. reflexivity. Qed.

Example isoformat_century : isoformat_ordinal 693655 = lit "1900-03-01".
Proof. reflexivity. Qed.

Example isoformat_year_end : isoformat_ordinal 730485 = lit "2000-12-31".
Proof. reflexivity. Qed.

Example isoformat_first : isoformat_ordinal 1 = lit "0001-01-01".
Proof. reflexivity. Qed.

Example isoformat_last : isoformat_ordinal MAXORDINAL = lit "9999-12-31".
Proof. reflexivity. Qed.

Example re_sub_tags_paragraph :
  re_sub_tags (lit "<p>Hello <b>world</b></p>") = lit "Hello world".
Proof. reflexivity. Qed.

Example re_sub_tags_empty_brackets : re_sub_tags (lit "a<>b") = lit "a<>b".
Proof. reflexivity. Qed.

Example re_sub_tags_unclosed : re_sub_tags (lit "1 < 2") = lit "1 < 2".
Proof. reflexivity. Qed.

Example re_sub_tags_greedy_start : re_sub_tags (lit "a < b <c> d") = lit "a  d".
Proof. reflexivity. Qed.

(** ** The cycling iterator *)

Section CycleFacts.
Context {A : Type}.

Lemma cycle_after_0 (l : list A) : cycle l = cycle_after l 0.
Proof.
  unfold cycle, cycle_after. destruct l as [|x l]; simpl; reflexivity.
Qed.

Lemma mod_succ (k n : nat) :
  n <> 0%nat ->
  (S k mod n)%nat = if (n <=? S (k mod n))%nat then 0%nat else S (k mod n).
Proof.
  intros Hn.
  pose proof (Nat.mod_upper_bound k n Hn) as Hlt.
  pose proof (Nat.div_mod_eq k n) as Hk.
  destruct (n <=? S (k mod n))%nat eqn:E.
  - apply Nat.leb_le in E.
    symmetry. apply (Nat.mod_unique (S k) n (S (k / n)) 0); lia.
  - apply Nat.leb_gt in E.
    symmetry. apply (Nat.mod_unique (S k) n (k / n) (S (k mod n))); lia.
Qed.

Lemma skipn_nth_error (l : list A) (k : nat) (x : A) :
  List.nth_error l k = Some x -> skipn k l = x :: skipn (S k) l.
Proof.
  revert k. induction l as [|y l IH]; intros [|k] H; simpl in *; try discriminate.
  - injection H as ->. reflexivity.
  - apply IH. exact H.
Qed.

Lemma firstn_nth_error (l : list A) (k : nat) (x : A) :
  List.nth_error l k = Some x -> firstn k l ++ [x] = firstn (S k) l.
Proof.
  revert k. induction l as [|y l IH]; intros [|k] H; simpl in *; try discriminate.
  - injection H as ->. reflexivity.
  - f_equal. apply IH. exact H.
Qed.

(** Call number [k] of [next] (counted from 0) yields item [k mod n] of a
    non-empty list of [n] items. *)
Lemma cycle_next_after (l : list A) (k : nat) :
  l <> [] ->
  exists x, List.nth_error l (k mod length l) = Some x
            /\ cycle_next (cycle_after l k) = Ok (x, cycle_after l (S k)).
Proof.
  intros Hl.
  assert (Hn : length l <> 0%nat) by (destruct l; simpl; congruence).
  pose proof (Nat.mod_upper_bound k _ Hn) as Hlt.
  destruct (List.nth_error l (k mod length l)) as [x|] eqn:Hx;
    [|apply List.nth_error_None in Hx; lia].
  exists x. split; [reflexivity|].
  unfold cycle_after at 1.
  destruct (k <? length l)%nat eqn:Ek.
  - apply Nat.ltb_lt in Ek.
    rewrite Nat.mod_small in Hx by exact Ek.
    unfold cycle_next; simpl.
    rewrite (skipn_nth_error _ _ _ Hx), (firstn_nth_error _ _ _ Hx).
    unfold cycle_after.
    destruct (S k <? length l)%nat eqn:Ek'; [reflexivity|].
    apply Nat.ltb_ge in Ek'.
    assert (S k = length l) as -> by lia.
    rewrite List.skipn_all, List.firstn_all, Nat.Div0.mod_same. reflexivity.
  - apply Nat.ltb_ge in Ek.
    unfold cycle_next; simpl. rewrite Hx.
    unfold cycle_after.
    assert ((S k <? length l)%nat = false) as -> by (apply Nat.ltb_ge; lia).
    rewrite (mod_succ k _ Hn). reflexivity.
Qed.

(** On the empty list the first call already raises. *)
Lemma cycle_next_empty : cycle_next (cycle (@nil A)) = Raise StopIteration.
Proof. reflexivity. Qed.

End CycleFacts.

(** ** Schedule generation *)

Lemma fromordinal_valid (o : Z) :
  valid_ordinal o = true -> exists d, fromordinal o = Some d /\ toordinal d = o.
Proof.
  intros H. unfold fromordinal.
  destruct (decide (valid_ordinal o = true)) as [H'|H']; [|contradiction].
  eexists. split; reflexivity.
Qed.

Lemma fromordinal_invalid (o : Z) : valid_ordinal o = false -> fromordinal o = None.
Proof.
  intros H. unfold fromordinal.
  destruct (decide (valid_ordinal o = true)) as [H'|H']; [congruence|reflexivity].
Qed.

Lemma valid_ordinal_spec (o : Z) : valid_ordinal o = true <-> 1 <= o <= MAXORDINAL.
Proof. unfold valid_ordinal. rewrite andb_true_iff, !Z.leb_le. tauto. Qed.

Lemma today_valid (d : date) : 1 <= toordinal d <= MAXORDINAL.
Proof. apply valid_ordinal_spec, toordinal_valid. Qed.

Lemma for_each_app {A S : Type} (xs ys : list A) (body : A -> S -> res unit * S) (s : S) :
  for_each (xs ++ ys) body s =
  match for_each xs body s with
  | (Ok _, s') => for_each ys body s'
  | (Raise e, s') => (Raise e, s')
  end.
Proof.
  revert s. induction xs as [|x xs IH]; intros s; simpl; [reflexivity|].
  destruct (body x s) as [[[]|e] s']; [apply IH|reflexivity].
Qed.

Section ScheduleFacts.
Variable py_repr : json -> pystr.
Variable today : date.
Variable chat : nat -> pystr -> option pystr.
Variables (df : DataFrame) (tone : pystr).
Hypothesis df_nonempty : df <> [].

Local Abbreviation St client := (state_after py_repr today chat df client tone).
Local Abbreviation Entry client := (entry_at py_repr today chat df client tone).

(** One turn of the inner loop takes the state after [k] entries to the
    state after [k + 1] entries. *)
Lemma slot_body_after (client : bool) (d j : nat) (dt : date) (t : pystr) :
  (j < 3)%nat ->
  toordinal dt = toordinal today + Z.of_nat d ->
  nth j time_slots [] = t ->
  slot_body py_repr chat client tone dt t (St client (3 * d + j))
  = (Ok tt, St client (S (3 * d + j))).
Proof.
  intros Hj Hdt Ht.
  set (k := (3 * d + j)%nat).
  assert (Hdiv : (k / 3 = d)%nat).
  { symmetry. apply (Nat.div_unique k 3 d j); [exact Hj|reflexivity]. }
  assert (Hmod : (k mod 3 = j)%nat).
  { symmetry. apply (Nat.mod_unique k 3 d j); [exact Hj|reflexivity]. }
  destruct (cycle_next_after df k df_nonempty) as (p & Hp & Hnext).
  assert (Hpost : post_at df k = p).
  { unfold post_at. apply List.nth_error_nth. exact Hp. }
  assert (Hentry : forall text,
             text = rec_text (Entry client k) ->
             {| rec_datetime := isoformat dt ++ lit " " ++ t; rec_title := title p;
                rec_url := URL p; rec_text := text |} = Entry client k).
  { intros text ->. unfold entry_at. rewrite Hpost, Hdiv, Hmod, Ht.
    unfold isoformat. rewrite Hdt. reflexivity. }
  unfold slot_body, state_after.
  cbn [post_iter records sent]. rewrite Hnext.
  rewrite !List.seq_S, !List.map_app. cbn [List.map Nat.add].
  destruct client.
  - rewrite List.length_map, List.length_seq.
    rewrite Hentry; [|unfold entry_at; cbn [rec_text]; rewrite Hpost; reflexivity].
    rewrite Hpost. reflexivity.
  - rewrite Hentry; [|unfold entry_at; cbn [rec_text]; rewrite Hpost; reflexivity].
    reflexivity.
Qed.

(** One turn of the outer loop, for a day that the calendar still holds. *)
Lemma day_body_after (client : bool) (d : nat) :
  toordinal today + Z.of_nat d <= MAXORDINAL ->
  day_body py_repr today chat client tone (Z.of_nat d) (St client (3 * d))
  = (Ok tt, St client (3 * S d)).
Proof.
  intros Hd. pose proof (today_valid today) as Ht.
  unfold day_body, timedelta.
  assert ((Z.abs (Z.of_nat d) >? 999999999) = false) as ->.
  { rewrite Z.gtb_ltb. apply Z.ltb_ge. unfold MAXORDINAL in *. lia. }
  cbn [mbind res_bind]. unfold date_add.
  destruct (fromordinal_valid (toordinal today + Z.of_nat d)) as (dt & -> & Hdt).
  { apply valid_ordinal_spec. lia. }
  unfold time_slots. cbn [for_each].
  replace (3 * d)%nat with (3 * d + 0)%nat at 1 by lia.
  rewrite (slot_body_after client d 0 dt) by (first [lia | exact Hdt | reflexivity]).
  replace (S (3 * d + 0)) with (3 * d + 1)%nat by lia.
  rewrite (slot_body_after client d 1 dt) by (first [lia | exact Hdt | reflexivity]).
  replace (S (3 * d + 1)) with (3 * d + 2)%nat by lia.
  rewrite (slot_body_after client d 2 dt) by (first [lia | exact Hdt | reflexivity]).
  f_equal. f_equal. lia.
Qed.

(** The day on which the calendar ends: the date addition raises before
    anything else happens. *)
Lemma day_body_overflow (client : bool) (d : Z) (st : gen_state) :
  0 <= d -> MAXORDINAL < toordinal today + d ->
  day_body py_repr today chat client tone d st = (Raise OverflowError, st).
Proof.
  intros Hd Hover. unfold day_body, timedelta.
  destruct (Z.abs d >? 999999999); cbn [mbind res_bind]; [reflexivity|].
  unfold date_add. rewrite fromordinal_invalid; [reflexivity|].
  apply not_true_is_false. rewrite valid_ordinal_spec. lia.
Qed.

Lemma days_loop_after (client : bool) (n d : nat) :
  toordinal today + Z.of_nat d + Z.of_nat n - 1 <= MAXORDINAL ->
  for_each (List.map Z.of_nat (seq d n)) (day_body py_repr today chat client tone)
    (St client (3 * d))
  = (Ok tt, St client (3 * (d + n))).
Proof.
  revert d. induction n as [|n IH]; intros d Hd.
  - rewrite Nat.add_0_r. reflexivity.
  - cbn [seq List.map for_each].
    rewrite day_body_after by lia.
    rewrite IH by lia. do 2 f_equal. lia.
Qed.

(** The whole call, when the calendar holds every day asked for. *)
Lemma generate_in_calendar (days : Z) (api_key : option pystr) :
  toordinal today + days - 1 <= MAXORDINAL ->
  generate_sns_schedule py_repr today chat df days tone api_key
  = (Ok (List.map (Entry (has_client api_key)) (seq 0 (3 * Z.to_nat days))),
     St (has_client api_key) (3 * Z.to_nat days)).
Proof.
  intros Hd. pose proof (today_valid today) as Ht.
  unfold generate_sns_schedule, range.
  rewrite cycle_after_0.
  replace {| post_iter := cycle_after df 0; records := []; sent := [] |}
    with (St (has_client api_key) (3 * 0)).
  - rewrite days_loop_after by lia. reflexivity.
  - unfold state_after. destruct (has_client api_key); reflexivity.
Qed.

(** The whole call, when the days asked for run past the calendar. *)
Lemma generate_past_calendar (days : Z) (api_key : option pystr) :
  MAXORDINAL < toordinal today + days - 1 ->
  exists st, generate_sns_schedule py_repr today chat df days tone api_key
             = (Raise OverflowError, st)
             /\ (has_client api_key = false -> sent st = []).
Proof.
  intros Hd. pose proof (today_valid today) as Ht.
  set (good := Z.to_nat (MAXORDINAL - toordinal today + 1)).
  exists (St (has_client api_key) (3 * good)).
  split; [|intros ->; reflexivity].
  unfold generate_sns_schedule, range.
  replace (Z.to_nat days) with (good + S (Z.to_nat days - S good))%nat by lia.
  rewrite List.seq_app, List.map_app, for_each_app.
  rewrite cycle_after_0.
  replace {| post_iter := cycle_after df 0; records := []; sent := [] |}
    with (St (has_client api_key) (3 * 0)).
  - rewrite days_loop_after by lia.
    cbn [seq List.map for_each Nat.add].
    rewrite day_body_overflow by lia. reflexivity.
  - unfold state_after. destruct (has_client api_key); reflexivity.
Qed.

(** Whenever the call returns a table, the table is the list of the
    entries [entry_at 0], [entry_at 1], ... *)
Lemma generate_returns (days : Z) (api_key : option pystr) (recs : list entry)
    (st : gen_state) :
  generate_sns_schedule py_repr today chat df days tone api_key = (Ok recs, st) ->
  recs = List.map (Entry (has_client api_key)) (seq 0 (3 * Z.to_nat days))
  /\ st = St (has_client api_key) (3 * Z.to_nat days).
Proof.
  intros H.
  destruct (Z_le_gt_dec (toordinal today + days - 1) MAXORDINAL) as [Hd|Hd].
  - rewrite generate_in_calendar in H by exact Hd. injection H as <- <-. split; reflexivity.
  - destruct (generate_past_calendar days api_key) as (st' & H' & _); [lia|].
    rewrite H' in H. discriminate.
Qed.

Lemma entry_at_lookup (client : bool) (n i : nat) (e : entry) :
  List.nth_error (List.map (Entry client) (seq 0 n)) i = Some e ->
  (i < n)%nat /\ e = Entry client i.
Proof.
  intros H.
  assert (Hi : (i < n)%nat).
  { assert (Hs : List.nth_error (List.map (Entry client) (seq 0 n)) i <> None)
      by congruence.
    apply List.nth_error_Some in Hs.
    rewrite List.length_map, List.length_seq in Hs. exact Hs. }
  split; [exact Hi|].
  rewrite List.nth_error_map, List.nth_error_seq in H.
  destruct (i <? n)%nat eqn:E; [|apply Nat.ltb_ge in E; lia].
  simpl in H. injection H as <-. reflexivity.
Qed.

Lemma post_at_lookup (i : nat) :
  List.nth_error df (i mod length df) = Some (post_at df i).
Proof.
  unfold post_at. apply List.nth_error_nth'.
  apply Nat.mod_upper_bound. destruct df; simpl; congruence.
Qed.
End ScheduleFacts.

Example sample_schedule_titles :
  match fst (generate_sns_schedule sample_repr sample_today sample_chat sample_posts 2
               polite None) with
  | Ok recs => List.map rec_title recs
  | Raise _ => []
  end
  = List.map (fun s => JStr (lit s)) ["first"; "second"; "first"; "second"; "first"; "second"]%string.
Proof. vm_compute. reflexivity. Qed.

Example sample_schedule_first_entry :
  match fst (generate_sns_schedule sample_repr sample_today sample_chat sample_posts 2
               polite None) with
  | Ok (e :: _) => (rec_datetime e, rec_text e)
  | _ => ([], [])
  end
  = (lit "2026-11-04 09:00", lit "first" ++ [10%N] ++ lit "https://blog.example/first").
Proof. vm_compute. reflexivity. Qed.

Example sample_schedule_with_key :
  match fst (generate_sns_schedule sample_repr sample_today sample_chat sample_posts 1
               polite (Some (lit "sk-test"))) with
  | Ok recs => List.map rec_text recs
  | Raise _ => []
  end
  = [ lit "a caption #x #y #z";
      [91; 65; 73; 29983; 25104; 12456; 12521; 12540; 93; 32]%N ++ lit "second";
      lit "a caption #x #y #z" ].
Proof. vm_compute. reflexivity. Qed.

(** C1, as amended.  For every non-empty post collection and every day
    count [days >= 1] whose last day [today + days - 1] is still a date of
    the calendar, [generate_sns_schedule] returns a schedule with exactly
    [days * 3] rows. *)
Theorem schedule_row_count (py_repr : json -> pystr) (today : date)
    (chat : nat -> pystr -> option pystr) (df : DataFrame) (days : Z) (tone : pystr)
    (api_key : option pystr) :
  df <> [] ->
  1 <= days ->
  toordinal today + days - 1 <= MAXORDINAL ->
  exists recs,
    fst (generate_sns_schedule py_repr today chat df days tone api_key) = Ok recs
    /\ Z.of_nat (length recs) = days * 3.
Proof.
  intros Hdf Hdays Hcal.
  rewrite (generate_in_calendar py_repr today chat df tone Hdf days api_key Hcal).
  eexists. split; [reflexivity|].
  rewrite List.length_map, List.length_seq. lia.
Qed.

Lemma schedule_row_count_witness :
  exists recs,
    fst (generate_sns_schedule sample_repr sample_today sample_chat sample_posts 2 polite
           None) = Ok recs
    /\ Z.of_nat (length recs) = 2 * 3.
Proof.
  apply schedule_row_count; [discriminate | lia | vm_compute; discriminate].
Defined.

(** C1, as stated, fails on the empty post collection: with one day asked
    for, no schedule of three rows is returned.  It also fails when the
    days asked for run past the last date of the calendar. *)
Lemma schedule_row_count_fails_on_empty :
  ~ (exists recs,
        fst (generate_sns_schedule sample_repr sample_today sample_chat [] 1 polite None)
        = Ok recs
        /\ Z.of_nat (length recs) = 1 * 3)
  /\ fst (generate_sns_schedule sample_repr sample_today sample_chat sample_posts 3000000
            polite None)
     = Raise OverflowError.
Proof.
  split.
  - intros (recs & H & _). vm_compute in H. discriminate.
  - destruct (generate_past_calendar sample_repr sample_today sample_chat sample_posts polite
                ltac:(discriminate) 3000000 None) as (st & -> & _);
      [vm_compute; reflexivity|reflexivity].
Qed.

(** C2.  For every non-empty post collection, whenever a schedule is
    returned it has three entries per day, and the entry at position [i]
    (counted from 0) carries the title and URL of post [i mod postCount] of
    the collection, on day [i / 3] in time slot [i mod 3]; the assignment
    of posts to positions is the same for every clock, tone, key and
    caption service. *)
Theorem schedule_assignment_cycles (py_repr : json -> pystr) (today : date)
    (chat : nat -> pystr -> option pystr) (df : DataFrame) (days : Z) (tone : pystr)
    (api_key : option pystr) (recs : list entry) (st : gen_state) :
  df <> [] ->
  generate_sns_schedule py_repr today chat df days tone api_key = (Ok recs, st) ->
  length recs = (3 * Z.to_nat days)%nat
  /\ (forall i e,
        List.nth_error recs i = Some e ->
        exists p,
          List.nth_error df (i mod length df) = Some p
          /\ rec_title e = title p
          /\ rec_url e = URL p
          /\ rec_datetime e
             = isoformat_ordinal (toordinal today + Z.of_nat (i / 3))
               ++ lit " " ++ nth (i mod 3) time_slots [])
  /\ (forall py_repr' today' chat' tone' api_key' recs' st',
        generate_sns_schedule py_repr' today' chat' df days tone' api_key' = (Ok recs', st') ->
        List.map (fun e => (rec_title e, rec_url e)) recs'
        = List.map (fun e => (rec_title e, rec_url e)) recs).
Proof.
  intros Hdf H.
  apply (generate_returns _ _ _ _ _ Hdf) in H as [-> _].
  split; [rewrite List.length_map, List.length_seq; reflexivity|].
  split.
  - intros i e He. apply entry_at_lookup in He as [_ ->].
    exists (post_at df i). split; [apply post_at_lookup, Hdf|].
    repeat split; reflexivity.
  - intros py_repr' today' chat' tone' api_key' recs' st' H'.
    apply (generate_returns _ _ _ _ _ Hdf) in H' as [-> _].
    rewrite !List.map_map. reflexivity.
Qed.

Lemma schedule_assignment_cycles_witness :
  exists recs st,
    generate_sns_schedule sample_repr sample_today sample_chat sample_posts 2 polite None
    = (Ok recs, st)
    /\ forall i e,
        List.nth_error recs i = Some e ->
        exists p,
          List.nth_error sample_posts (i mod length sample_posts) = Some p
          /\ rec_title e = title p
          /\ rec_url e = URL p
          /\ rec_datetime e
             = isoformat_ordinal (toordinal sample_today + Z.of_nat (i / 3))
               ++ lit " " ++ nth (i mod 3) time_slots [].
Proof.
  eexists. eexists. split; [vm_compute; reflexivity|].
  eapply (schedule_assignment_cycles sample_repr sample_today sample_chat sample_posts 2
            polite None); [discriminate | vm_compute; reflexivity].
Defined.

(** C4.  With an empty post collection and [days >= 1] the call raises
    [StopIteration] at the first request for a post: no schedule is
    returned, no entry has been produced and no caption request sent. *)
Theorem schedule_empty_collection_raises (py_repr : json -> pystr) (today : date)
    (chat : nat -> pystr -> option pystr) (days : Z) (tone : pystr)
    (api_key : option pystr) :
  1 <= days ->
  generate_sns_schedule py_repr today chat [] days tone api_key
  = (Raise StopIteration, {| post_iter := cycle []; records := []; sent := [] |}).
Proof.
  intros Hdays. pose proof (today_valid today) as Ht.
  unfold generate_sns_schedule, range.
  destruct (Z.to_nat days) as [|n] eqn:En; [lia|].
  cbn [seq List.map for_each].
  unfold day_body at 1, timedelta.
  change (Z.abs (Z.of_nat 0) >? 999999999) with false.
  cbn [mbind res_bind Z.of_nat]. unfold date_add.
  destruct (fromordinal_valid (toordinal today + Z.of_nat 0)) as (dt & -> & _).
  { apply valid_ordinal_spec. lia. }
  reflexivity.
Qed.

Lemma schedule_empty_collection_raises_witness :
  generate_sns_schedule sample_repr sample_today sample_chat [] 30 polite
    (Some (lit "sk-test"))
  = (Raise StopIteration, {| post_iter := cycle []; records := []; sent := [] |}).
Proof. apply schedule_empty_collection_raises. lia. Defined.

(** C7.  For every non-empty post collection and every day count, when no
    key is supplied ([None] or the empty string) no request is sent to the
    caption service, and the text of every entry of the returned schedule
    is the title of its post, a newline, and the URL of its post. *)
Theorem schedule_text_without_key (py_repr : json -> pystr) (today : date)
    (chat : nat -> pystr -> option pystr) (df : DataFrame) (days : Z) (tone : pystr)
    (api_key : option pystr) (r : res (list entry)) (st : gen_state) :
  df <> [] ->
  api_key = None \/ api_key = Some [] ->
  generate_sns_schedule py_repr today chat df days tone api_key = (r, st) ->
  sent st = []
  /\ forall recs i e,
       r = Ok recs ->
       List.nth_error recs i = Some e ->
       exists p,
         List.nth_error df (i mod length df) = Some p
         /\ rec_title e = title p
         /\ rec_url e = URL p
         /\ rec_text e = py_str py_repr (title p) ++ newline ++ py_str py_repr (URL p)
         /\ forall t u, title p = JStr t -> URL p = JStr u -> rec_text e = t ++ newline ++ u.
Proof.
  intros Hdf Hkey H.
  assert (Hc : has_client api_key = false) by (destruct Hkey as [-> | ->]; reflexivity).
  split.
  - destruct (Z_le_gt_dec (toordinal today + days - 1) MAXORDINAL) as [Hd|Hd].
    + rewrite (generate_in_calendar py_repr today chat df tone Hdf days api_key Hd) in H.
      injection H as _ <-. rewrite Hc. reflexivity.
    + destruct (generate_past_calendar py_repr today chat df tone Hdf days api_key)
        as (st' & H' & Hsent); [lia|].
      rewrite H' in H. injection H as _ <-. exact (Hsent Hc).
  - intros recs i e -> He.
    apply (generate_returns _ _ _ _ _ Hdf) in H as [-> _].
    apply entry_at_lookup in He as [_ ->].
    exists (post_at df i). split; [apply post_at_lookup, Hdf|].
    rewrite Hc. unfold entry_at, plain_text; cbn [rec_title rec_url rec_text].
    repeat split; try reflexivity.
    intros t u -> ->. reflexivity.
Qed.

Lemma schedule_text_without_key_witness :
  exists recs st,
    generate_sns_schedule sample_repr sample_today sample_chat sample_posts 2 polite
      (Some [])
    = (Ok recs, st)
    /\ sent st = []
    /\ forall i e,
         List.nth_error recs i = Some e ->
         exists p,
           List.nth_error sample_posts (i mod length sample_posts) = Some p
           /\ rec_text e
              = py_str sample_repr (title p) ++ newline ++ py_str sample_repr (URL p).
Proof.
  eexists. eexists. split; [vm_compute; reflexivity|].
  edestruct (schedule_text_without_key sample_repr sample_today sample_chat sample_posts 2
               polite (Some [])) as [Hsent Htext];
    [discriminate | right; reflexivity | vm_compute; reflexivity |].
  split; [exact Hsent|].
  intros i e He.
  destruct (Htext _ i e eq_refl He) as (p & Hp & _ & _ & Ht & _).
  exists p. split; assumption.
Defined.

(** ** Tag removal *)

Lemma find_gt_Some (s : pystr) (n : nat) :
  find_gt s = Some n ->
  exists body rest,
    s = body ++ 62%N :: rest /\ length body = n /\ forall c, In c body -> c <> 62%N.
Proof.
  revert n. induction s as [|c s IH]; intros n H; [discriminate|].
  cbn [find_gt] in H. destruct (c =? 62)%N eqn:Ec.
  - injection H as <-. apply N.eqb_eq in Ec. subst c.
    exists [], s. repeat split. intros c [].
  - destruct (find_gt s) as [m|]; [|discriminate]. injection H as <-.
    destruct (IH m eq_refl) as (body & rest & -> & Hlen & Hno).
    exists (c :: body), rest. repeat split; [cbn [length]; lia|].
    intros x [<-|Hx]; [apply N.eqb_neq; exact Ec|apply Hno; exact Hx].
Qed.

Lemma find_gt_None (s : pystr) : find_gt s = None -> ~ In 62%N s.
Proof.
  induction s as [|c s IH]; intros H; [intros []|].
  cbn [find_gt] in H. destruct (c =? 62)%N eqn:Ec; [discriminate|].
  destruct (find_gt s); [discriminate|].
  intros [->|Hin]; [rewrite N.eqb_refl in Ec; discriminate|exact (IH eq_refl Hin)].
Qed.

Lemma sub_tags_skip (pre rest : pystr) :
  sub_tags (length pre) (pre ++ rest) = sub_tags 0 rest.
Proof.
  induction pre as [|c pre IH]; [reflexivity|]. cbn [length app sub_tags]. exact IH.
Qed.

Lemma tag_body_unique (body body' rest rest' : pystr) :
  (forall c, In c body -> c <> 62%N) ->
  (forall c, In c body' -> c <> 62%N) ->
  body ++ 62%N :: rest = body' ++ 62%N :: rest' ->
  body = body' /\ rest = rest'.
Proof.
  revert body'. induction body as [|c body IH]; intros [|c' body'] Hno Hno' H;
    cbn [app] in H.
  - injection H as <-. split; reflexivity.
  - injection H as <- _. exfalso. apply (Hno' 62%N); [left; reflexivity|reflexivity].
  - injection H as -> _. exfalso. apply (Hno 62%N); [left; reflexivity|reflexivity].
  - injection H as <- H.
    destruct (IH body') as [-> ->];
      [intros x Hx; apply Hno; right; exact Hx
      |intros x Hx; apply Hno'; right; exact Hx
      |exact H|].
    split; reflexivity.
Qed.

(** [re_sub_tags] removes exactly the matches of the pattern. *)
Lemma re_sub_tags_removes (s : pystr) : removes_tags s (re_sub_tags s).
Proof.
  unfold re_sub_tags.
  remember (length s) as n eqn:Hn. revert s Hn.
  induction n as [n IH] using lt_wf_ind. intros s Hn.
  destruct s as [|c s]; [constructor|].
  cbn [sub_tags].
  destruct (c =? 60)%N eqn:Ec.
  - apply N.eqb_eq in Ec. subst c.
    destruct (find_gt s) as [[|j]|] eqn:Hgt.
    + apply removes_char.
      * intros (body & rest & [Hne Hno] & Heq). injection Heq as ->.
        apply find_gt_Some in Hgt as (b0 & r0 & Heq & Hlen & _).
        destruct b0; [|discriminate]. cbn [app] in Heq.
        destruct body as [|x body]; [contradiction|].
        injection Heq as -> _. apply (Hno 62%N); [left; reflexivity|reflexivity].
      * apply (IH (length s)); [subst n; cbn [length]; lia|reflexivity].
    + apply find_gt_Some in Hgt as (body & rest & -> & Hlen & Hno).
      replace (S (S j)) with (length (body ++ [62%N]))
        by (rewrite List.length_app; cbn [length]; lia).
      replace (body ++ 62%N :: rest) with ((body ++ [62%N]) ++ rest)
        by (rewrite <- List.app_assoc; reflexivity).
      rewrite sub_tags_skip. rewrite <- List.app_assoc. cbn [app].
      apply removes_tag.
      * split; [destruct body; [discriminate|discriminate]|exact Hno].
      * apply (IH (length rest)); [|reflexivity].
        subst n. cbn [length]. rewrite List.length_app. cbn [length]. lia.
    + apply removes_char.
      * intros (body & rest & _ & Heq). injection Heq as ->.
        apply find_gt_None in Hgt. apply Hgt, List.in_or_app. right. left. reflexivity.
      * apply (IH (length s)); [subst n; cbn [length]; lia|reflexivity].
  - apply removes_char.
    + intros (body & rest & _ & Heq). injection Heq as -> _.
      rewrite N.eqb_refl in Ec. discriminate.
    + apply (IH (length s)); [subst n; cbn [length]; lia|reflexivity].
Qed.

(** The relation determines its output, so it holds of [re_sub_tags s]
    only. *)
Lemma removes_tags_functional (s out out' : pystr) :
  removes_tags s out -> removes_tags s out' -> out = out'.
Proof.
  intros H. revert out'. induction H as [|body rest out Hb H IH|c rest out Hno H IH];
    intros out' H'.
  - inversion H'. reflexivity.
  - inversion H' as [|body' rest' out1 Hb' H1 Heq|c' rest' out1 Hno' H1]; subst.
    + apply tag_body_unique in Heq as [-> ->]; [|apply Hb'|apply Hb].
      apply IH. exact H1.
    + exfalso. apply Hno'. exists body, rest. split; [exact Hb|reflexivity].
  - inversion H' as [|body' rest' out1 Hb' H1 Heq|c' rest' out1 Hno' H1]; subst.
    + exfalso. apply Hno. exists body', rest'. split; [exact Hb'|reflexivity].
    + f_equal. apply IH. exact H1.
Qed.

Lemma re_sub_tags_spec (s out : pystr) : removes_tags s out <-> out = re_sub_tags s.
Proof.
  split.
  - intros H. exact (removes_tags_functional _ _ _ H (re_sub_tags_removes s)).
  - intros ->. apply re_sub_tags_removes.
Qed.

(** ** Content fetch *)

Example fetch_sample_counts :
  match fetch_wp_posts ascii_int sample_server 10 with
  | Some (Some df, []) => List.map char_count df
  | _ => []
  end = [2; 18; 3].
Proof. vm_compute. reflexivity. Qed.

Example fetch_sample_needs_three_requests :
  fetch_wp_posts ascii_int sample_server 2 = None
  /\ exists df, fetch_wp_posts ascii_int sample_server 3 = Some (Some df, []).
Proof. split; [reflexivity|]. eexists. vm_compute. reflexivity. Qed.

Example fetch_failing_site :
  fetch_wp_posts ascii_int failing_server 10
  = Some (None, [WPError 500 (lit "internal error")]).
Proof. reflexivity. Qed.

(** *** The table constructor *)

Example column_types :
  List.map maybe_convert_objects
    [ [JInt 1; JInt 2]; [JInt 1; JNull]; [JNull; JNull]; [JBool true; JBool false];
      [JBool true; JNull]; [JBool true; JInt 1]; [JInt 1; JFloat 2.5]; [JInt 1; JStr (lit "a")];
      [JInt (2 ^ 63)]; [JInt (-1); JInt (2 ^ 63)]; [JNull; JInt (2 ^ 70)];
      [JInt (2 ^ 70); JNull]; [JStr (lit "a"); JInt (10 ^ 400)]; [JInt (10 ^ 400)] ]
  = [ Ok int64_dtype; Ok float64_dtype; Ok object_dtype; Ok bool_dtype; Ok object_dtype;
      Ok object_dtype; Ok float64_dtype; Ok object_dtype; Ok uint64_dtype; Ok object_dtype;
      Ok float64_dtype; Ok object_dtype; Ok object_dtype; Raise OverflowError ].
Proof. vm_compute. reflexivity. Qed.

Example float_of_int_rounds :
  float_of_int (2 ^ 53 + 1) = Ok 9007199254740992%float
  /\ float_of_int (- (2 ^ 53 + 3)) = Ok (-9007199254740996)%float
  /\ float_of_int (2 ^ 1024 - 2 ^ 970) = Raise OverflowError.
Proof. vm_compute. repeat split; reflexivity. Qed.

Lemma pd_DataFrame_rows (rows : list row) (df : DataFrame) :
  pd_DataFrame rows = Ok df ->
  exists d1 d2 d3 d4 d5 d6 d7,
    maybe_convert_objects (List.map post_id rows) = Ok d1
    /\ df = List.map (row_as d1 d2 d3 d4 d5 d6 d7) rows.
Proof.
  unfold pd_DataFrame. intros H.
  destruct (maybe_convert_objects (List.map post_id rows)) as [d1|]; [|discriminate].
  destruct (maybe_convert_objects (List.map title rows)) as [d2|]; [|discriminate].
  destruct (maybe_convert_objects (List.map slug rows)) as [d3|]; [|discriminate].
  destruct (maybe_convert_objects (List.map URL rows)) as [d4|]; [|discriminate].
  destruct (maybe_convert_objects (List.map status rows)) as [d5|]; [|discriminate].
  destruct (maybe_convert_objects (List.map date_published rows)) as [d6|]; [|discriminate].
  destruct (maybe_convert_objects (List.map modified rows)) as [d7|]; [|discriminate].
  cbn [mbind res_bind] in H. injection H as <-.
  exists d1, d2, d3, d4, d5, d6, d7. split; reflexivity.
Qed.

Lemma pd_DataFrame_length (rows : list row) (df : DataFrame) :
  pd_DataFrame rows = Ok df -> length df = length rows.
Proof.
  intros H. apply pd_DataFrame_rows in H as (d1 & d2 & d3 & d4 & d5 & d6 & d7 & _ & ->).
  apply List.length_map.
Qed.

Lemma pd_DataFrame_char_count (rows : list row) (df : DataFrame) :
  pd_DataFrame rows = Ok df ->
  Forall2 (fun r t => char_count t = char_count r) rows df.
Proof.
  intros H. apply pd_DataFrame_rows in H as (d1 & d2 & d3 & d4 & d5 & d6 & d7 & _ & ->).
  induction rows as [|r rows IH]; constructor; [reflexivity|exact IH].
Qed.




Section FetchFacts.
Variable py_int : pystr -> res Z.
Variable server : Z -> res response.

(** A response that meets one of the three conditions ends the loop at its
    own page, whatever the fuel left. *)
Lemma pagination_stops_here (fuel : nat) (page : Z) (acc : list json) (r : response) :
  server page = Ok r ->
  stops_paging py_int page r ->
  exists ex, pagination py_int server (S fuel) page acc = Some (ex, page).
Proof.
  intros Hr Hstop. cbn [pagination]. rewrite Hr.
  destruct (status_code r =? 400) eqn:E400; [eauto|].
  destruct (negb (status_code r =? 200)); [eauto|].
  destruct (json_body r) as [posts|e] eqn:Hbody; [|eauto].
  destruct (negb (truthy posts)) eqn:Htruth; [eauto|].
  destruct (iterate posts) as [items|e]; [|eauto].
  destruct (total_pages_header r) as [tp|] eqn:Hhdr; [|eauto].
  destruct (py_int tp) as [total|e] eqn:Hint; [|eauto].
  destruct (page >=? total) eqn:Eg; [eauto|].
  exfalso. destruct Hstop as [H400 | [(posts' & Hp & Hf) | (tp' & total' & Htp & Ht & Hle)]].
  - apply Z.eqb_neq in E400. contradiction.
  - rewrite Hp in Hbody. injection Hbody as ->. rewrite Hf in Htruth. discriminate.
  - rewrite Htp in Hhdr. injection Hhdr as ->. rewrite Ht in Hint. injection Hint as ->.
    rewrite Z.geb_leb in Eg. apply Z.leb_gt in Eg. lia.
Qed.

(** The loop never asks for a page beyond one whose response meets one of
    the three conditions. *)
Lemma pagination_stops_by (stop : Z) (r : response) :
  server stop = Ok r ->
  stops_paging py_int stop r ->
  forall (fuel : nat) (page : Z) (acc : list json),
    page <= stop ->
    (Z.to_nat (stop - page) < fuel)%nat ->
    exists ex last,
      pagination py_int server fuel page acc = Some (ex, last) /\ page <= last <= stop.
Proof.
  intros Hr Hstop. induction fuel as [|fuel IH]; intros page acc Hle Hfuel; [lia|].
  destruct (Z.eq_dec page stop) as [->|Hne].
  - destruct (pagination_stops_here fuel stop acc r Hr Hstop) as (ex & Hex).
    exists ex, stop. split; [exact Hex|lia].
  - cbn [pagination].
    destruct (server page) as [rp|e]; [|exists (Raised e), page; split; [reflexivity|lia]].
    destruct (status_code rp =? 400); [eexists _, page; split; [reflexivity|lia]|].
    destruct (negb (status_code rp =? 200)); [eexists _, page; split; [reflexivity|lia]|].
    destruct (json_body rp) as [posts|e]; [|eexists _, page; split; [reflexivity|lia]].
    destruct (negb (truthy posts)); [eexists _, page; split; [reflexivity|lia]|].
    destruct (iterate posts) as [items|e]; [|eexists _, page; split; [reflexivity|lia]].
    destruct (total_pages_header rp) as [tp|]; [|eexists _, page; split; [reflexivity|lia]].
    destruct (py_int tp) as [total|e]; [|eexists _, page; split; [reflexivity|lia]].
    destruct (page >=? total); [eexists _, page; split; [reflexivity|lia]|].
    destruct (IH (page + 1) (acc ++ items)) as (ex & last & Hp & Hlast); [lia|lia|].
    exists ex, last. split; [exact Hp|lia].
Qed.

(** More fuel does not change the outcome of a loop that has ended. *)
Lemma pagination_fuel_mono (fuel fuel' : nat) (page : Z) (acc : list json)
    (out : loop_exit * Z) :
  (fuel <= fuel')%nat ->
  pagination py_int server fuel page acc = Some out ->
  pagination py_int server fuel' page acc = Some out.
Proof.
  revert fuel' page acc. induction fuel as [|fuel IH]; intros fuel' page acc Hle H;
    [discriminate|].
  destruct fuel' as [|fuel']; [lia|].
  cbn [pagination] in *.
  destruct (server page) as [rp|e]; [|exact H].
  destruct (status_code rp =? 400); [exact H|].
  destruct (negb (status_code rp =? 200)); [exact H|].
  destruct (json_body rp) as [posts|e]; [|exact H].
  destruct (negb (truthy posts)); [exact H|].
  destruct (iterate posts) as [items|e]; [|exact H].
  destruct (total_pages_header rp) as [tp|]; [|exact H].
  destruct (py_int tp) as [total|e]; [|exact H].
  destruct (page >=? total); [exact H|].
  apply IH; [lia|exact H].
Qed.
End FetchFacts.

(** C3.  If the response to some page [k] is an empty page, or has status
    400, or comes with a page-count header that [k] has reached, then the
    pagination loop terminates: with any fuel of at least [k] requests it
    ends, it never requests a page after [k], and [fetch_wp_posts]
    returns. *)
Theorem pagination_terminates (py_int : pystr -> res Z) (server : Z -> res response)
    (k : Z) (r : response) (fuel : nat) :
  1 <= k ->
  server k = Ok r ->
  stops_paging py_int k r ->
  (Z.to_nat k <= fuel)%nat ->
  (exists ex last,
      pagination py_int server fuel 1 [] = Some (ex, last) /\ 1 <= last <= k)
  /\ exists result, fetch_wp_posts py_int server fuel = Some result.
Proof.
  intros Hk Hr Hstop Hfuel.
  destruct (pagination_stops_by py_int server k r Hr Hstop fuel 1 []) as (ex & last & Hp & Hl);
    [lia|lia|].
  split; [exists ex, last; split; assumption|].
  unfold fetch_wp_posts. rewrite Hp.
  destruct ex as [all_posts|code body|e]; [|eauto|eauto].
  destruct (rows ← build_rows all_posts; pd_DataFrame rows); eauto.
Qed.

Lemma pagination_terminates_witness :
  (exists ex last,
      pagination ascii_int sample_server 3 1 [] = Some (ex, last) /\ 1 <= last <= 3)
  /\ exists result, fetch_wp_posts ascii_int sample_server 3 = Some result.
Proof.
  apply (pagination_terminates ascii_int sample_server 3
           {| status_code := 400; text := lit "rest_post_invalid_page_number";
              json_body := Ok (JObj [(lit "code", JStr (lit "rest_post_invalid_page_number"))]);
              total_pages_header := None |} 3);
    [lia | reflexivity | left; reflexivity | vm_compute; lia].
Defined.

Section FetchStatus.
Variable py_int : pystr -> res Z.
Variable server : Z -> res response.

Lemma pagination_step (fuel : nat) (page : Z) (acc : list json) (r : response) :
  server page = Ok r ->
  continues_paging py_int page r ->
  pagination py_int server (S fuel) page acc
  = pagination py_int server fuel (page + 1) (acc ++ page_items server page).
Proof.
  intros Hr (H200 & posts & items & tp & total & Hbody & Htruth & Hiter & Hhdr & Hint & Hlt).
  cbn [pagination]. unfold page_items. rewrite Hr, H200, Hbody, Htruth. cbn [mbind res_bind].
  rewrite Hiter, Hhdr, Hint.
  change (200 =? 400) with false. change (negb (200 =? 200)) with false. cbn [negb].
  assert ((page >=? total) = false) as -> by (rewrite Z.geb_leb; apply Z.leb_gt; lia).
  reflexivity.
Qed.

(** While the pages 1 to [n] let the loop continue, the loop arrives at
    page [n + 1] with their items accumulated. *)
Lemma pagination_reaches (n fuel : nat) :
  (forall j, 1 <= j <= Z.of_nat n ->
             exists rj, server j = Ok rj /\ continues_paging py_int j rj) ->
  pagination py_int server (n + fuel) 1 []
  = pagination py_int server fuel (Z.of_nat n + 1) (accumulated server n).
Proof.
  revert fuel. induction n as [|n IH]; intros fuel Hcont; [reflexivity|].
  replace (S n + fuel)%nat with (n + S fuel)%nat by lia.
  rewrite IH by (intros j Hj; apply Hcont; lia).
  destruct (Hcont (Z.of_nat n + 1)) as (rj & Hrj & Hc); [lia|].
  rewrite (pagination_step fuel _ _ rj Hrj Hc).
  cbn [accumulated]. f_equal; [lia|]. do 2 f_equal. lia.
Qed.
End FetchStatus.








Lemma make_row_char_count (p : json) (r : row) :
  make_row p = Ok r ->
  exists html s,
    rendered_content p = Ok html
    /\ (if truthy html then html else JStr []) = JStr s
    /\ char_count r = Z.of_nat (length (strip (re_sub_tags s))).
Proof.
  unfold make_row, rendered_content, strip_html. intros H.
  destruct (py_get p (lit "content") (JObj [])) as [content|e];
    cbn [mbind res_bind] in *; [|discriminate].
  destruct (py_get content (lit "rendered") (JStr [])) as [html|e];
    cbn [mbind res_bind] in *; [|discriminate].
  exists html.
  destruct (if truthy html then html else JStr []) as [| | | |s| |];
    cbn [mbind res_bind] in H; try discriminate.
  exists s. split; [reflexivity|]. split; [reflexivity|].
  repeat match type of H with
         | context [py_get ?a ?b ?c] =>
             destruct (py_get a b c); cbn [mbind res_bind] in H; [|discriminate]
         end.
  injection H as <-. reflexivity.
Qed.

Lemma build_rows_char_count (all_posts : list json) (rows : list row) :
  build_rows all_posts = Ok rows ->
  Forall2 (fun p r =>
             exists html s,
               rendered_content p = Ok html
               /\ (if truthy html then html else JStr []) = JStr s
               /\ char_count r = Z.of_nat (length (strip (re_sub_tags s))))
          all_posts rows.
Proof.
  revert rows. induction all_posts as [|p rest IH]; intros rows H.
  - injection H as <-. constructor.
  - cbn [build_rows] in H.
    destruct (make_row p) as [r|e] eqn:Hr; cbn [mbind res_bind] in H; [|discriminate].
    destruct (build_rows rest) as [rows'|e] eqn:Hrest; cbn [mbind res_bind] in H;
      [|discriminate].
    injection H as <-. constructor; [apply make_row_char_count; exact Hr|].
    apply IH. reflexivity.
Qed.

(** C8, as amended.  Whenever [fetch_wp_posts] returns a table, its rows
    are, in order, the rows of the posts accumulated by the loop, and the
    character count of each row is the length of the post's rendered
    content (the empty string when it is missing or false) with every tag
    match removed and then the white space at both ends stripped; nothing
    is unescaped and no text between tags is dropped. *)
Theorem fetch_char_count (py_int : pystr -> res Z) (server : Z -> res response)
    (fuel : nat) (df : DataFrame) (msgs : list message) :
  fetch_wp_posts py_int server fuel = Some (Some df, msgs) ->
  exists all_posts last,
    pagination py_int server fuel 1 [] = Some (Break all_posts, last)
    /\ Forall2 (fun p r =>
                  exists html s,
                    rendered_content p = Ok html
                    /\ (if truthy html then html else JStr []) = JStr s
                    /\ char_count r = Z.of_nat (length (strip (re_sub_tags s))))
               all_posts df.
Proof.
  unfold fetch_wp_posts. intros H.
  destruct (pagination py_int server fuel 1 []) as [[[all_posts|code body|e] last]|];
    try discriminate.
  destruct (build_rows all_posts) as [rows|e] eqn:Hrows; cbn [mbind res_bind] in H;
    [|discriminate].
  destruct (pd_DataFrame rows) as [df'|e] eqn:Hdf; [|discriminate].
  injection H as <- _.
  exists all_posts, last. split; [reflexivity|].
  pose proof (build_rows_char_count _ _ Hrows) as Hbuilt.
  pose proof (pd_DataFrame_char_count _ _ Hdf) as Hkept.
  clear Hrows Hdf. revert df' Hkept.
  induction Hbuilt as [|p r ps rs (html & s & Hhtml & Hs & Hc) _ IH]; intros df' Hkept.
  - inversion Hkept. constructor.
  - inversion Hkept as [|r' t rs' ts Ht Hts]; subst. constructor; [|apply IH; exact Hts].
    exists html, s. split; [exact Hhtml|]. split; [exact Hs|]. rewrite Ht. exact Hc.
Qed.

Lemma fetch_char_count_witness :
  exists df all_posts last,
    fetch_wp_posts ascii_int sample_server 3 = Some (Some df, [])
    /\ pagination ascii_int sample_server 3 1 [] = Some (Break all_posts, last)
    /\ Forall2 (fun p r =>
                  exists html s,
                    rendered_content p = Ok html
                    /\ (if truthy html then html else JStr []) = JStr s
                    /\ char_count r = Z.of_nat (length (strip (re_sub_tags s))))
               all_posts df.
Proof.
  eexists.
  edestruct (fetch_char_count ascii_int sample_server 3) as (all_posts & last & Hp & Hall);
    [vm_compute; reflexivity|].
  exists all_posts, last. split; [vm_compute; reflexivity|]. split; [exact Hp | exact Hall].
Defined.

(** C8, as stated, fails: for a post whose rendered content ends in a
    newline, the count in the table is smaller than the length of the
    content with only its tags removed. *)
Lemma char_count_is_not_tags_removed_length :
  exists df r,
    fetch_wp_posts ascii_int sample_server 3 = Some (Some df, [])
    /\ List.nth_error df 0 = Some r
    /\ rendered_content (wp_post 1 "first" (lit "<p>Hi</p>" ++ newline))
       = Ok (JStr (lit "<p>Hi</p>" ++ newline))
    /\ List.nth_error (accumulated sample_server 2) 0
       = Some (wp_post 1 "first" (lit "<p>Hi</p>" ++ newline))
    /\ char_count r = 2
    /\ tags_removed_length (lit "<p>Hi</p>" ++ newline) = 3.
Proof.
  do 2 eexists. split; [vm_compute; reflexivity|].
  repeat split; reflexivity.
Qed.

Example char_count_keeps_entities :
  strip_html (JStr (lit "Tom &amp; Jerry")) = Ok (lit "Tom &amp; Jerry").
Proof. reflexivity. Qed.

Example char_count_keeps_script_text :
  strip_html (JStr (lit "<script>alert(1)</script>")) = Ok (lit "alert(1)").
Proof. reflexivity. Qed.

Example char_count_of_missing_content : strip_html JNull = Ok [].
Proof. reflexivity. Qed.

(** ** Spreadsheet sync *)

Lemma overlay_row_nil (r : list pystr) : overlay_row r [] = r.
Proof. induction r as [|c r IH]; [reflexivity|]. cbn [overlay_row]. rewrite IH. reflexivity. Qed.

Lemma overlay_nil (g : grid) : overlay g [] = g.
Proof.
  induction g as [|r g IH]; [reflexivity|].
  cbn [overlay]. rewrite overlay_row_nil, IH. reflexivity.
Qed.

Example overlay_keeps_old_cells :
  overlay [[lit "a"]] [[lit "x"; lit "y"]; [lit "z"]] = [[lit "a"; lit "y"]; [lit "z"]].
Proof. reflexivity. Qed.

Section SheetsFacts.
Variable py_repr : json -> pystr.
Variable fails : api_call -> bool.

(** A clear that succeeds followed by an update that fails: the call
    reports failure and the worksheet stays empty. *)
Lemma write_clear_then_failed_update (svc : sheets_service) (df : DataFrame)
    (sheet_id worksheet_name : pystr) (sh : gmap pystr grid) (old : grid) :
  svc !! sheet_id = Some sh ->
  sh !! worksheet_name = Some old ->
  (forall c, fails c = true <-> c = Update) ->
  write_to_sheets py_repr fails svc df sheet_id worksheet_name
  = (false, <[sheet_id := <[worksheet_name := []]> sh]> svc, [SheetsError APIError]).
Proof.
  intros Hsvc Hsh Hfails.
  assert (Hok : forall c, c <> Update -> fails c = false).
  { intros c Hc. destruct (fails c) eqn:E; [|reflexivity]. apply Hfails in E. contradiction. }
  assert (Hup : fails Update = true) by (apply Hfails; reflexivity).
  unfold write_to_sheets, open_by_key, worksheet, clear, update, call.
  rewrite !Hok by discriminate. cbn [mbind res_bind].
  rewrite Hsvc, Hsh, Hup. reflexivity.
Qed.

(** A call that reports success leaves exactly the block it wrote in the
    worksheet. *)
Lemma write_success_contents (svc svc' : sheets_service) (df : DataFrame)
    (sheet_id worksheet_name : pystr) (msgs : list message) :
  write_to_sheets py_repr fails svc df sheet_id worksheet_name = (true, svc', msgs) ->
  read_worksheet svc' sheet_id worksheet_name = Some (sheet_values py_repr df).
Proof.
  unfold write_to_sheets, open_by_key, worksheet, add_worksheet, clear, update, call.
  intros H.
  destruct (fails ReadSecrets); cbn [mbind res_bind] in H; [discriminate|].
  destruct (fails FromServiceAccountInfo); cbn [mbind res_bind] in H; [discriminate|].
  destruct (fails Authorize); cbn [mbind res_bind] in H; [discriminate|].
  destruct (fails OpenByKey); [discriminate|].
  destruct (svc !! sheet_id) as [sh|]; [|discriminate].
  destruct (fails Clear), (fails Update), (fails GetWorksheet), (fails AddWorksheet),
    (sh !! worksheet_name) as [ws|];
    try discriminate;
    rewrite lookup_insert_eq in H; injection H as <- _;
    unfold read_worksheet; rewrite lookup_insert_eq; cbn [mbind option_bind];
    rewrite lookup_insert_eq, ?overlay_row_nil, ?overlay_nil; reflexivity.
Qed.
End SheetsFacts.

(** C9.  [write_to_sheets] is not atomic: there is an execution in which
    the worksheet holds text, the clear succeeds, the bulk write fails,
    and the call returns [False] with the error shown while the worksheet
    is left empty. *)
Theorem write_to_sheets_not_atomic :
  exists (fails : api_call -> bool) (svc svc' : sheets_service) (df : DataFrame)
         (sheet_id worksheet_name : pystr) (old : grid) (e : exn),
    read_worksheet svc sheet_id worksheet_name = Some old
    /\ old <> []
    /\ fails Clear = false
    /\ fails Update = true
    /\ write_to_sheets sample_repr fails svc df sheet_id worksheet_name
       = (false, svc', [SheetsError e])
    /\ read_worksheet svc' sheet_id worksheet_name = Some [].
Proof.
  exists update_fails, sample_service.
  eexists. exists sample_posts, (lit "sheet-1"), (lit "WP_Posts").
  eexists. exists APIError.
  split; [reflexivity|]. split; [discriminate|]. split; [reflexivity|]. split; [reflexivity|].
  split.
  - eapply write_clear_then_failed_update.
    + reflexivity.
    + reflexivity.
    + intros c. destruct c; split; intros H; first [reflexivity | discriminate].
  - unfold read_worksheet. rewrite lookup_insert_eq. cbn [mbind option_bind].
    rewrite lookup_insert_eq. reflexivity.
Qed.

Lemma sheet_values_expected (py_repr : json -> pystr) (df : DataFrame) :
  sheet_values py_repr df = expected_sheet py_repr df.
Proof.
  unfold sheet_values, expected_sheet, columns, expected_header, row_as_str, text_of,
    py_str, str_of_Z.
  reflexivity.
Qed.

(** C10.  Whenever [write_to_sheets] returns [True], reading the
    worksheet back gives the header row with the eight column names of the
    table in their order (no name for a table without rows), followed by
    one row per table row holding the eight cell values as text: a string
    as it is, an integer in decimal, [None], [True] and [False] by their
    names, anything else by its [repr]; and nothing else. *)
Theorem sheets_round_trip (py_repr : json -> pystr) (fails : api_call -> bool)
    (svc svc' : sheets_service) (df : DataFrame) (sheet_id worksheet_name : pystr)
    (msgs : list message) :
  write_to_sheets py_repr fails svc df sheet_id worksheet_name = (true, svc', msgs) ->
  read_worksheet svc' sheet_id worksheet_name = Some (expected_sheet py_repr df).
Proof.
  intros H. rewrite <- sheet_values_expected.
  exact (write_success_contents py_repr fails svc svc' df sheet_id worksheet_name msgs H).
Qed.

Lemma sheets_round_trip_witness :
  exists svc',
    write_to_sheets sample_repr no_failure sample_service sample_posts (lit "sheet-1")
      (lit "WP_Posts") = (true, svc', [])
    /\ read_worksheet svc' (lit "sheet-1") (lit "WP_Posts")
       = Some
           [ [ [35352; 20107; 73; 68]%N; [12479; 12452; 12488; 12523]%N;
               [12473; 12521; 12483; 12464]%N; [85; 82; 76]%N;
               [12473; 12486; 12540; 12479; 12473]%N; [20844; 38283; 26085]%N;
               [26368; 32066; 26356; 26032; 26085]%N; [25991; 23383; 25968]%N ];
             List.map lit
               [ "11"; "first"; "first"; "https://blog.example/first"; "publish";
                 "2026-10-01T09:00:00"; "2026-10-02T09:00:00"; "120" ]%string;
             List.map lit
               [ "12"; "second"; "second"; "https://blog.example/second"; "publish";
                 "2026-10-01T09:00:00"; "2026-10-02T09:00:00"; "120" ]%string ].
Proof.
  eexists. split; [reflexivity|].
  apply (sheets_round_trip sample_repr no_failure sample_service _ sample_posts
           (lit "sheet-1") (lit "WP_Posts") []).
  reflexivity.
Defined.

(** The same for a fetched table whose column of ids became floats: the
    texts are those of the floats. *)
Example sheets_round_trip_float_ids :
  exists df svc',
    fetch_wp_posts ascii_int missing_id_server 1 = Some (Some df, [])
    /\ write_to_sheets float_repr_sample no_failure sample_service df (lit "sheet-1")
         (lit "WP_Posts") = (true, svc', [])
    /\ (svc' !! lit "sheet-1" ≫= fun sh => sh !! lit "WP_Posts")
       = Some
           [ [ [35352; 20107; 73; 68]%N; [12479; 12452; 12488; 12523]%N;
               [12473; 12521; 12483; 12464]%N; [85; 82; 76]%N;
               [12473; 12486; 12540; 12479; 12473]%N; [20844; 38283; 26085]%N;
               [26368; 32066; 26356; 26032; 26085]%N; [25991; 23383; 25968]%N ];
             List.map lit
               [ "1.0"; "first"; "first"; "https://blog.example/first"; "publish";
                 "2026-10-01T09:00:00"; "2026-10-02T09:00:00"; "2" ]%string;
             List.map lit [ "nan"; "second"; ""; ""; ""; ""; ""; "2" ]%string ].
Proof.
  eexists. eexists. split; [vm_compute; reflexivity|].
  split; [reflexivity|]. vm_compute. reflexivity.
Qed.

Example sheets_round_trip_new_worksheet :
  exists svc',
    write_to_sheets sample_repr no_failure sample_service sample_posts (lit "sheet-1")
      (lit "Fresh") = (true, svc', [])
    /\ read_worksheet svc' (lit "sheet-1") (lit "WP_Posts")
       = read_worksheet sample_service (lit "sheet-1") (lit "WP_Posts").
Proof.
  eexists. split; [reflexivity|]. vm_compute. reflexivity.
Qed.

Example sheets_missing_spreadsheet :
  write_to_sheets sample_repr no_failure sample_service sample_posts (lit "nowhere")
    (lit "WP_Posts") = (false, sample_service, [SheetsError APIError]).
Proof. reflexivity. Qed.

(** ** Identity gate *)

Example sample_token_rejected_when_verified :
  jwt_decode sample_load sample_signature_valid sample_now sample_token true None
  = Raise InvalidSignatureError.
Proof. reflexivity. Qed.

Example sample_token_expired :
  expired sample_now [(lit "sub", JStr (lit "u1")); (lit "exp", JInt 100)] = true.
Proof. reflexivity. Qed.

(** C5.  [verify_firebase_token] returns [None] or a decoded claim set: it
    returns [None] for an absent or empty token and for a token that does
    not decode, and the decoded claims of every other token, whatever the
    validity of its signature, its expiry and its issuer, so that a
    well-formed token whose signature is invalid or whose expiry is past,
    which the verifying decoder rejects, is accepted. *)
Theorem verify_firebase_token_unverified (load : pystr -> option claims)
    (signature_valid : pystr -> bool) (now : Z) :
  verify_firebase_token load signature_valid now None = None
  /\ verify_firebase_token load signature_valid now (Some []) = None
  /\ (forall token,
        load token = None ->
        verify_firebase_token load signature_valid now (Some token) = None)
  /\ (forall token payload,
        token <> [] ->
        load token = Some payload ->
        verify_firebase_token load signature_valid now (Some token) = Some payload
        /\ (signature_valid token = false \/ expired now payload = true ->
            exists e, jwt_decode load signature_valid now token true None = Raise e)).
Proof.
  split; [reflexivity|]. split; [reflexivity|]. split.
  - intros token Hload. unfold verify_firebase_token, jwt_decode.
    destruct token; [reflexivity|]. rewrite Hload. reflexivity.
  - intros token payload Hne Hload. split.
    + unfold verify_firebase_token, jwt_decode.
      destruct token; [contradiction|]. rewrite Hload. reflexivity.
    + intros Hbad. unfold jwt_decode. rewrite Hload. cbn [negb].
      destruct (signature_valid token); cbn [negb]; [|eauto].
      destruct Hbad as [Hbad|Hbad]; [discriminate|]. rewrite Hbad. eauto.
Qed.

Lemma verify_firebase_token_unverified_witness :
  sample_signature_valid sample_token = false
  /\ expired sample_now [(lit "sub", JStr (lit "u1")); (lit "exp", JInt 100)] = true
  /\ verify_firebase_token sample_load sample_signature_valid sample_now (Some sample_token)
     = Some [(lit "sub", JStr (lit "u1")); (lit "exp", JInt 100)]
  /\ exists e,
       jwt_decode sample_load sample_signature_valid sample_now sample_token true None
       = Raise e.
Proof.
  split; [reflexivity|]. split; [reflexivity|].
  destruct (verify_firebase_token_unverified sample_load sample_signature_valid sample_now)
    as (_ & _ & _ & Haccept).
  destruct (Haccept sample_token [(lit "sub", JStr (lit "u1")); (lit "exp", JInt 100)])
    as [Hverify Hreject]; [discriminate | reflexivity |].
  split; [exact Hverify|]. apply Hreject. left. reflexivity.
Defined.

(** * Further properties of the code *)

(** ** Content fetch: pages, exceptions, rows *)

Section FetchMore.
Variable py_int : pystr -> res Z.
Variable server : Z -> res response.

(** The loop started at page [m + 1] with the posts of the pages 1 to [m]:
    every page before the last one let the loop continue, and a loop left
    by [break] holds the posts of whole pages. *)
Lemma pagination_whole_pages (fuel m : nat) (ex : loop_exit) (last : Z) :
  pagination py_int server fuel (Z.of_nat m + 1) (accumulated server m) = Some (ex, last) ->
  exists k : nat,
    (m <= k)%nat /\ last = Z.of_nat k + 1
    /\ (forall j, Z.of_nat m + 1 <= j < last ->
                  exists rj, server j = Ok rj /\ continues_paging py_int j rj)
    /\ (forall all_posts, ex = Break all_posts ->
                          all_posts = accumulated server k
                          \/ all_posts = accumulated server (S k)).
Proof.
  revert m. induction fuel as [|fuel IH]; intros m H; [discriminate|].
  cbn [pagination] in H.
  assert (Hhere : forall ex0, Some (ex0, Z.of_nat m + 1) = Some (ex, last) ->
            (forall all_posts, ex0 = Break all_posts ->
                               all_posts = accumulated server m
                               \/ all_posts = accumulated server (S m)) ->
            exists k : nat,
              (m <= k)%nat /\ last = Z.of_nat k + 1
              /\ (forall j, Z.of_nat m + 1 <= j < last ->
                            exists rj, server j = Ok rj /\ continues_paging py_int j rj)
              /\ (forall all_posts, ex = Break all_posts ->
                                    all_posts = accumulated server k
                                    \/ all_posts = accumulated server (S k))).
  { intros ex0 Heq Hacc. injection Heq as <- <-. exists m.
    split; [lia|]. split; [reflexivity|]. split; [intros j Hj; lia|exact Hacc]. }
  destruct (server (Z.of_nat m + 1)) as [r|e] eqn:Hr;
    [|apply (Hhere _ H); intros ? [=]].
  destruct (status_code r =? 400) eqn:E400;
    [apply (Hhere _ H); intros ? [= <-]; left; reflexivity|].
  destruct (status_code r =? 200) eqn:E200; cbn [negb] in H;
    [|apply (Hhere _ H); intros ? [=]].
  destruct (json_body r) as [posts|e] eqn:Hbody; [|apply (Hhere _ H); intros ? [=]].
  destruct (truthy posts) eqn:Htruth; cbn [negb] in H;
    [|apply (Hhere _ H); intros ? [= <-]; left; reflexivity].
  destruct (iterate posts) as [items|e] eqn:Hiter; [|apply (Hhere _ H); intros ? [=]].
  assert (Hitems : accumulated server m ++ items = accumulated server (S m)).
  { cbn [accumulated]. unfold page_items.
    replace (Z.of_nat (S m)) with (Z.of_nat m + 1) by lia.
    rewrite Hr, Hbody. cbn [mbind res_bind]. rewrite Hiter. reflexivity. }
  rewrite Hitems in H.
  destruct (total_pages_header r) as [tp|] eqn:Hhdr;
    [|apply (Hhere _ H); intros ? [= <-]; right; reflexivity].
  destruct (py_int tp) as [total|e] eqn:Hint; [|apply (Hhere _ H); intros ? [=]].
  destruct (Z.of_nat m + 1 >=? total) eqn:Eg;
    [apply (Hhere _ H); intros ? [= <-]; right; reflexivity|].
  replace (Z.of_nat m + 1 + 1) with (Z.of_nat (S m) + 1) in H by lia.
  destruct (IH (S m) H) as (k & Hk & Hlast & Hcont & Hacc).
  exists k. split; [lia|]. split; [exact Hlast|]. split; [|exact Hacc].
  intros j Hj. destruct (Z.eq_dec j (Z.of_nat m + 1)) as [->|Hne].
  - exists r. split; [exact Hr|]. split; [apply Z.eqb_eq; exact E200|].
    exists posts, items, tp, total. repeat split; try assumption.
    rewrite Z.geb_leb in Eg. apply Z.leb_gt in Eg. exact Eg.
  - apply Hcont. lia.
Qed.
End FetchMore.

(** X1.  The loop asks for a further page only after a page with status
    200, a non-empty body and a page-count header that parses to more than
    the page number; and when it is left by [break], the posts it holds
    are those of whole pages, in page order: the pages before the last
    one, with or without the last one. *)
Theorem pagination_continues_only_when_advertised (py_int : pystr -> res Z)
    (server : Z -> res response) (fuel : nat) (ex : loop_exit) (last : Z) :
  pagination py_int server fuel 1 [] = Some (ex, last) ->
  exists k : nat,
    last = Z.of_nat k + 1
    /\ (forall j, 1 <= j < last ->
                  exists rj, server j = Ok rj /\ continues_paging py_int j rj)
    /\ (forall all_posts, ex = Break all_posts ->
                          all_posts = accumulated server k
                          \/ all_posts = accumulated server (S k)).
Proof.
  intros H.
  destruct (pagination_whole_pages py_int server fuel 0 ex last H)
    as (k & _ & Hlast & Hcont & Hacc).
  exists k. split; [exact Hlast|]. split; [|exact Hacc].
  intros j Hj. apply Hcont. lia.
Qed.

Lemma pagination_continues_only_when_advertised_witness :
  exists k : nat,
    3 = Z.of_nat k + 1
    /\ (forall j, 1 <= j < 3 ->
                  exists rj, sample_server j = Ok rj /\ continues_paging ascii_int j rj)
    /\ (forall all_posts, Break (accumulated sample_server 2) = Break all_posts ->
                          all_posts = accumulated sample_server k
                          \/ all_posts = accumulated sample_server (S k)).
Proof.
  apply (pagination_continues_only_when_advertised ascii_int sample_server 3).
  vm_compute. reflexivity.
Defined.

Lemma fetch_on_empty_first_page (py_int : pystr -> res Z) (server : Z -> res response)
    (r : response) (posts : json) (fuel : nat) :
  server 1 = Ok r ->
  status_code r = 200 ->
  json_body r = Ok posts ->
  truthy posts = false ->
  (1 <= fuel)%nat ->
  pagination py_int server fuel 1 [] = Some (Break [], 1)
  /\ fetch_wp_posts py_int server fuel = Some (Some [], []).
Proof.
  intros Hr H200 Hbody Hfalse Hfuel.
  assert (Hp : pagination py_int server fuel 1 [] = Some (Break [], 1)).
  { destruct fuel as [|fuel]; [lia|]. cbn [pagination].
    rewrite Hr, H200, Hbody, Hfalse. reflexivity. }
  split; [exact Hp|]. unfold fetch_wp_posts. rewrite Hp. reflexivity.
Qed.

(** X2.  A site whose first page is empty: the function makes one request
    and returns the empty table, not the failure signal, and shows no
    message. *)
Theorem fetch_empty_site (py_int : pystr -> res Z) (server : Z -> res response)
    (r : response) (posts : json) (fuel : nat) :
  server 1 = Ok r ->
  status_code r = 200 ->
  json_body r = Ok posts ->
  truthy posts = false ->
  (1 <= fuel)%nat ->
  pagination py_int server fuel 1 [] = Some (Break [], 1)
  /\ fetch_wp_posts py_int server fuel = Some (Some [], []).
Proof. apply fetch_on_empty_first_page. Qed.

Lemma fetch_empty_site_witness :
  pagination ascii_int empty_server 1 1 [] = Some (Break [], 1)
  /\ fetch_wp_posts ascii_int empty_server 1 = Some (Some [], []).
Proof.
  apply (fetch_empty_site ascii_int empty_server
           {| status_code := 200; text := lit "[...]"; json_body := Ok (JArr []);
              total_pages_header := Some (lit "0") |} (JArr []));
    [reflexivity | reflexivity | reflexivity | reflexivity | lia].
Defined.

(** X3.  An exception while a page is fetched and taken in (the request
    raises, the body is not JSON, the body cannot be iterated, or the
    page-count header is not a number) makes the function return the
    failure signal with the exception shown, whatever the earlier pages
    delivered: there is no partial table. *)
Theorem fetch_exception_is_failure (py_int : pystr -> res Z) (server : Z -> res response)
    (n : nat) (e : exn) (fuel : nat) :
  (forall j, 1 <= j <= Z.of_nat n ->
             exists rj, server j = Ok rj /\ continues_paging py_int j rj) ->
  page_raises py_int server (Z.of_nat n + 1) e ->
  (n < fuel)%nat ->
  fetch_wp_posts py_int server fuel = Some (None, [ExceptionMessage e]).
Proof.
  intros Hcont Hraise Hfuel.
  assert (Hreach : pagination py_int server fuel 1 []
                   = pagination py_int server (S (fuel - S n)) (Z.of_nat n + 1)
                       (accumulated server n)).
  { replace fuel with (n + S (fuel - S n))%nat at 1 by lia.
    apply pagination_reaches. exact Hcont. }
  unfold fetch_wp_posts. rewrite Hreach. cbn [pagination].
  destruct Hraise as [Hr | (r & Hr & H200 & Hrest)]; rewrite Hr; [reflexivity|].
  rewrite H200. change (200 =? 400) with false. change (negb (200 =? 200)) with false.
  cbn match.
  destruct Hrest as [Hbody | (posts & Hbody & Htruth & Hrest)]; rewrite Hbody;
    [reflexivity|].
  rewrite Htruth. cbn [negb].
  destruct Hrest as [Hiter | (items & tp & Hiter & Hhdr & Hint)]; rewrite Hiter;
    [reflexivity|].
  rewrite Hhdr, Hint. reflexivity.
Qed.

Lemma not_json_server_continues (j : Z) :
  1 <= j <= Z.of_nat 1 ->
  exists rj, not_json_server j = Ok rj /\ continues_paging ascii_int j rj.
Proof.
  intros Hj. assert (j = 1) as -> by lia.
  eexists. split; [reflexivity|]. split; [reflexivity|].
  do 4 eexists. repeat split; try reflexivity.
Defined.

Lemma fetch_exception_is_failure_witness :
  fetch_wp_posts ascii_int not_json_server 2 = Some (None, [ExceptionMessage JSONDecodeError]).
Proof.
  apply (fetch_exception_is_failure ascii_int not_json_server 1 JSONDecodeError 2
           not_json_server_continues); [|lia].
  right. eexists. split; [reflexivity|]. split; [reflexivity|]. left. reflexivity.
Defined.

(** X4.  A page that comes without the page-count header ends the loop
    after its posts have been taken in: nothing further is requested. *)
Theorem fetch_missing_header_stops (py_int : pystr -> res Z) (server : Z -> res response)
    (n : nat) (r : response) (posts : json) (items : list json) (fuel : nat) :
  (forall j, 1 <= j <= Z.of_nat n ->
             exists rj, server j = Ok rj /\ continues_paging py_int j rj) ->
  server (Z.of_nat n + 1) = Ok r ->
  status_code r = 200 ->
  json_body r = Ok posts ->
  truthy posts = true ->
  iterate posts = Ok items ->
  total_pages_header r = None ->
  (n < fuel)%nat ->
  pagination py_int server fuel 1 []
  = Some (Break (accumulated server n ++ items), Z.of_nat n + 1).
Proof.
  intros Hcont Hr H200 Hbody Htruth Hiter Hhdr Hfuel.
  replace fuel with (n + S (fuel - S n))%nat by lia.
  rewrite (pagination_reaches py_int server n _ Hcont).
  cbn [pagination]. rewrite Hr, H200, Hbody, Htruth, Hiter, Hhdr. reflexivity.
Qed.

Lemma fetch_missing_header_stops_witness :
  pagination ascii_int headerless_server 5 1 []
  = Some (Break (accumulated headerless_server 0
                 ++ [wp_post 1 "post" (lit "<p>Hi</p>")]), Z.of_nat 0 + 1).
Proof.
  apply (fetch_missing_header_stops ascii_int headerless_server 0
           {| status_code := 200; text := lit "[...]";
              json_body := Ok (JArr [wp_post 1 "post" (lit "<p>Hi</p>")]);
              total_pages_header := None |}
           (JArr [wp_post 1 "post" (lit "<p>Hi</p>")]));
    [intros j Hj; simpl in Hj; lia
    | reflexivity | reflexivity | reflexivity | reflexivity | reflexivity | reflexivity | lia].
Defined.

Lemma make_row_fields (p : json) (r : row) :
  make_row p = Ok r -> exists fields, p = JObj fields /\ row_of_fields fields r.
Proof.
  unfold make_row. intros H.
  destruct p as [| | | | |?|fields]; cbn [py_get mbind res_bind] in H; try discriminate.
  exists fields. split; [reflexivity|].
  destruct (py_get (dict_get fields (lit "content") (JObj [])) (lit "rendered") (JStr []))
    as [html|e]; cbn [mbind res_bind] in H; [|discriminate].
  destruct (strip_html html) as [content_text|e]; cbn [mbind res_bind] in H; [|discriminate].
  destruct (dict_get fields (lit "title") (JObj [])) as [| | | | |?|title_obj] eqn:Ht;
    cbn [py_get mbind res_bind] in H; try discriminate.
  injection H as <-. unfold row_of_fields. cbn [post_id title slug URL status date_published modified].
  split; [reflexivity|]. split; [exists title_obj; split; [exact Ht|reflexivity]|].
  repeat split; reflexivity.
Qed.

Lemma build_rows_fields (all_posts : list json) (rows : list row) :
  build_rows all_posts = Ok rows ->
  Forall2 (fun p r => exists fields, p = JObj fields /\ row_of_fields fields r) all_posts rows.
Proof.
  revert rows. induction all_posts as [|p rest IH]; intros rows H.
  - injection H as <-. constructor.
  - cbn [build_rows] in H.
    destruct (make_row p) as [r|e] eqn:Hr; cbn [mbind res_bind] in H; [|discriminate].
    destruct (build_rows rest) as [rows'|e] eqn:Hrest; cbn [mbind res_bind] in H;
      [|discriminate].
    injection H as <-. constructor; [apply make_row_fields; exact Hr|].
    apply IH. reflexivity.
Qed.

(** The scan of a column whose values are missing or 64-bit integers. *)
Lemma scan_plain_ids (values : list json) (seen seen' : Seen) :
  forallb plain_id values = true ->
  bool_ seen = false -> float_ seen = false -> nan_ seen = false ->
  object_ seen = false -> uint_ seen = false ->
  scan_column values seen = Ok seen' ->
  bool_ seen' = false /\ float_ seen' = false /\ nan_ seen' = false
  /\ object_ seen' = false /\ uint_ seen' = false
  /\ null_ seen' = null_ seen || existsb is_null values
  /\ int_ seen' = int_ seen || existsb is_int values
  /\ forall z, In (JInt z) values -> exists f, float_of_int z = Ok f.
Proof.
  revert seen. induction values as [|v values IH]; intros seen Hplain Hb Hf Hn Ho Hu H.
  - injection H as <-. rewrite !orb_false_r. repeat split; try assumption. intros z [].
  - cbn [forallb] in Hplain. apply andb_true_iff in Hplain as [Hv Hplain].
    destruct v as [| |z| | | |]; try discriminate; cbn [scan_column] in H.
    + apply IH in H; try assumption.
      destruct H as (H1 & H2 & H3 & H4 & H5 & H6 & H7 & H8).
      cbn [null_ int_ orb] in H6, H7. cbn [existsb is_null is_int orb].
      split; [exact H1|]. split; [exact H2|]. split; [exact H3|]. split; [exact H4|].
      split; [exact H5|]. split; [rewrite H6, orb_true_r; reflexivity|].
      split; [exact H7|].
      intros z [Hz|Hz]; [discriminate|apply H8; exact Hz].
    + destruct (float_of_int z) as [f|e] eqn:Hfz; [|discriminate].
      cbn [plain_id] in Hv. apply andb_true_iff in Hv as [Hlo Hhi].
      apply Z.leb_le in Hlo, Hhi.
      assert (Hmax : (INT64_MAX <? z) = false) by (apply Z.ltb_ge; exact Hhi).
      assert (Humax : (UINT64_MAX <? z) = false)
        by (apply Z.ltb_ge; unfold UINT64_MAX, INT64_MAX in *; lia).
      assert (Hmin : (z <? INT64_MIN) = false) by (apply Z.ltb_ge; exact Hlo).
      cbn [existsb is_null is_int orb].
      assert (Hz8 : forall seen1 : Seen,
                 (forall z0, In (JInt z0) values -> exists f0, float_of_int z0 = Ok f0) ->
                 forall z', In (JInt z') (JInt z :: values) ->
                            exists f', float_of_int z' = Ok f').
      { intros _ H8 z' [Hz|Hz]; [injection Hz as <-; eauto|apply H8; exact Hz]. }
      destruct (null_ seen) eqn:Hnull.
      * apply IH in H; try assumption; try reflexivity.
        destruct H as (H1 & H2 & H3 & H4 & H5 & H6 & H7 & H8).
        cbn [null_ int_ orb] in H6, H7.
        split; [exact H1|]. split; [exact H2|]. split; [exact H3|]. split; [exact H4|].
        split; [exact H5|]. split; [exact H6|].
        split; [rewrite H7, orb_true_r; reflexivity|].
        apply (Hz8 seen). exact H8.
      * rewrite Hu, Hmax, Humax, Hmin in H. cbn [andb orb] in H.
        apply IH in H; try assumption; try reflexivity.
        destruct H as (H1 & H2 & H3 & H4 & H5 & H6 & H7 & H8).
        cbn [null_ int_ orb] in H6, H7.
        split; [exact H1|]. split; [exact H2|]. split; [exact H3|]. split; [exact H4|].
        split; [exact H5|]. split; [exact H6|].
        split; [rewrite H7, orb_true_r; reflexivity|].
        apply (Hz8 seen). exact H8.
Qed.

Lemma cell_as_str (dt : dtype) (s : pystr) : cell_as dt (JStr s) = JStr s.
Proof. destruct dt; reflexivity. Qed.

Lemma map_Forall2_row_as (P : row -> row -> Prop) (f : row -> row) (rows : list row) :
  (forall r, In r rows -> P r (f r)) -> Forall2 P rows (List.map f rows).
Proof.
  induction rows as [|r rows IH]; intros H; constructor.
  - apply H. left. reflexivity.
  - apply IH. intros r' Hr'. apply H. right. exact Hr'.
Qed.

(** X5.  A returned table comes without any message and has one row per
    accumulated post, in the order of the posts.  The rows are built from
    the id, the rendered title, the slug, the link, the status, the date
    and the modification date of each post, with [None] for a missing id
    and the empty string for any other missing key; the table keeps every
    string cell and every character count.  When all ids are 64-bit
    integers they are kept; when some ids are missing and the others are
    64-bit integers, the column of ids holds floats, NaN for a missing
    id. *)
Theorem fetch_rows_follow_posts (py_int : pystr -> res Z) (server : Z -> res response)
    (fuel : nat) (df : DataFrame) (msgs : list message) :
  fetch_wp_posts py_int server fuel = Some (Some df, msgs) ->
  msgs = []
  /\ exists all_posts rows last,
       pagination py_int server fuel 1 [] = Some (Break all_posts, last)
       /\ build_rows all_posts = Ok rows
       /\ length df = length all_posts
       /\ Forall2 (fun p r => exists fields, p = JObj fields /\ row_of_fields fields r)
                  all_posts rows
       /\ Forall2 keeps_text rows df
       /\ (forallb (fun r => plain_id (post_id r)) rows = true ->
           existsb (fun r => is_null (post_id r)) rows = false ->
           Forall2 (fun r t => post_id t = post_id r) rows df)
       /\ (forallb (fun r => plain_id (post_id r)) rows = true ->
           existsb (fun r => is_null (post_id r)) rows = true ->
           existsb (fun r => is_int (post_id r)) rows = true ->
           Forall2 id_is_float rows df).
Proof.
  unfold fetch_wp_posts. intros H.
  destruct (pagination py_int server fuel 1 []) as [[[all_posts|code body|e] last]|];
    try discriminate.
  destruct (build_rows all_posts) as [rows|e] eqn:Hrows; cbn [mbind res_bind] in H;
    [|discriminate].
  destruct (pd_DataFrame rows) as [df'|e] eqn:Hdf; [|discriminate].
  injection H as <- <-. split; [reflexivity|].
  exists all_posts, rows, last. split; [reflexivity|]. split; [exact Hrows|].
  pose proof (build_rows_fields _ _ Hrows) as Hall.
  split.
  { rewrite (pd_DataFrame_length _ _ Hdf). symmetry. eapply Forall2_length. exact Hall. }
  split; [exact Hall|].
  apply pd_DataFrame_rows in Hdf as (d1 & d2 & d3 & d4 & d5 & d6 & d7 & Hid & ->).
  split.
  { apply map_Forall2_row_as. intros r _. unfold keeps_text, row_as.
    cbn [post_id title slug URL status date_published modified char_count].
    repeat split; intros s ->; apply cell_as_str. }
  unfold maybe_convert_objects in Hid.
  destruct (scan_column (List.map post_id rows) nothing_seen) as [seen|e] eqn:Hscan;
    cbn [mbind res_bind] in Hid; [|discriminate].
  injection Hid as <-.
  assert (Hplain : forallb (fun r => plain_id (post_id r)) rows = true ->
            bool_ seen = false /\ float_ seen = false /\ nan_ seen = false
            /\ object_ seen = false /\ uint_ seen = false
            /\ null_ seen = existsb (fun r => is_null (post_id r)) rows
            /\ int_ seen = existsb (fun r => is_int (post_id r)) rows
            /\ forall z, In (JInt z) (List.map post_id rows) ->
                         exists f, float_of_int z = Ok f).
  { intros Hp.
    assert (Hp' : forallb plain_id (List.map post_id rows) = true).
    { clear -Hp. induction rows as [|r rows IH]; [reflexivity|].
      cbn [forallb List.map] in *. apply andb_true_iff in Hp as [-> Hp].
      rewrite (IH Hp). reflexivity. }
    destruct (scan_plain_ids (List.map post_id rows) nothing_seen seen Hp'
                eq_refl eq_refl eq_refl eq_refl eq_refl Hscan)
      as (H1 & H2 & H3 & H4 & H5 & H6 & H7 & H8).
    assert (He : forall g : json -> bool,
               existsb g (List.map post_id rows) = existsb (fun r => g (post_id r)) rows).
    { intros g. clear. induction rows as [|r rows IH]; [reflexivity|].
      cbn [existsb List.map]. rewrite IH. reflexivity. }
    rewrite He in H6, H7. cbn [null_ int_ nothing_seen orb] in H6, H7.
    repeat split; assumption. }
  split.
  - intros Hp Hnull. destruct (Hplain Hp) as (H1 & H2 & H3 & H4 & H5 & H6 & H7 & _).
    apply map_Forall2_row_as. intros r _. unfold row_as. cbn [post_id].
    unfold result_dtype. rewrite H1, H4, H6, Hnull, H3, H2, H5. cbn [orb].
    destruct (int_ seen); reflexivity.
  - intros Hp Hnull Hint. destruct (Hplain Hp) as (H1 & H2 & H3 & H4 & H5 & H6 & H7 & H8).
    apply map_Forall2_row_as. intros r Hr. unfold row_as, id_is_float. cbn [post_id].
    unfold result_dtype. rewrite H1, H4, H6, Hnull, H2, H7, Hint. cbn [orb].
    split.
    + intros ->. reflexivity.
    + intros z Hz. rewrite Hz.
      destruct (H8 z) as [f Hf];
        [apply List.in_map_iff; exists r; split; [exact Hz|exact Hr]|].
      exists f. split; [exact Hf|]. cbn [cell_as]. rewrite Hf. reflexivity.
Qed.

Lemma fetch_rows_follow_posts_witness :
  exists df,
    fetch_wp_posts ascii_int missing_id_server 1 = Some (Some df, [])
    /\ List.map post_id df = [JFloat 1; JFloat PrimFloat.nan]
    /\ exists all_posts rows last,
         pagination ascii_int missing_id_server 1 1 [] = Some (Break all_posts, last)
         /\ build_rows all_posts = Ok rows
         /\ List.map post_id rows = [JInt 1; JNull]
         /\ Forall2 keeps_text rows df
         /\ Forall2 id_is_float rows df.
Proof.
  eexists. split; [vm_compute; reflexivity|]. split; [reflexivity|].
  edestruct (fetch_rows_follow_posts ascii_int missing_id_server 1)
    as (_ & all_posts & rows & last & Hp & Hrows & _ & _ & Hkeep & _ & Hfloat);
    [vm_compute; reflexivity|].
  exists all_posts, rows, last. split; [exact Hp|]. split; [exact Hrows|].
  vm_compute in Hp. injection Hp as <- _.
  vm_compute in Hrows. injection Hrows as <-.
  split; [reflexivity|]. split; [exact Hkeep|].
  apply Hfloat; reflexivity.
Defined.

(** ** The helper [strip_html] *)

Lemma sub_tags_length (s : pystr) (skip : nat) : (length (sub_tags skip s) <= length s)%nat.
Proof.
  revert skip. induction s as [|c s IH]; intros skip; [reflexivity|].
  cbn [sub_tags length]. destruct skip as [|k].
  - destruct (c =? 60)%N; [destruct (find_gt s) as [[|j]|]|]; cbn [length];
      first [specialize (IH 0%nat); lia | specialize (IH (S (S j))); lia].
  - specialize (IH k). lia.
Qed.

Lemma lstrip_suffix (s : pystr) : exists l, s = l ++ lstrip s.
Proof.
  induction s as [|c s [l IH]]; [exists []; reflexivity|].
  cbn [lstrip]. destruct (isspace c).
  - exists (c :: l). cbn [app]. rewrite <- IH. reflexivity.
  - exists []. reflexivity.
Qed.

Lemma strip_inside (s : pystr) : exists l r, s = l ++ strip s ++ r.
Proof.
  unfold strip, rstrip.
  destruct (lstrip_suffix s) as [l Hl].
  destruct (lstrip_suffix (rev (lstrip s))) as [r Hr].
  exists l, (rev r).
  rewrite <- List.rev_app_distr, <- Hr, List.rev_involutive. exact Hl.
Qed.

Lemma strip_length (s : pystr) : (length (strip s) <= length s)%nat.
Proof.
  destruct (strip_inside s) as (l & r & H).
  rewrite H at 2. rewrite !List.length_app. lia.
Qed.

(** X6.  The character count of a row is never negative and never more
    than the number of characters of the rendered content it was computed
    from. *)
Theorem char_count_bounds (p : json) (r : row) (s : pystr) :
  make_row p = Ok r ->
  rendered_content p = Ok (JStr s) ->
  0 <= char_count r <= Z.of_nat (length s).
Proof.
  intros Hrow Hcontent.
  destruct (make_row_char_count p r Hrow) as (html & s' & Hhtml & Hs & ->).
  rewrite Hcontent in Hhtml. injection Hhtml as <-.
  assert (Hle : (length s' <= length s)%nat).
  { cbn [truthy] in Hs. destruct (negb (length s =? 0)%nat) eqn:E.
    - injection Hs as <-. reflexivity.
    - injection Hs as <-. cbn [length]. lia. }
  pose proof (strip_length (re_sub_tags s')) as H1.
  pose proof (sub_tags_length s' 0) as H2. unfold re_sub_tags in *. lia.
Qed.

Lemma char_count_bounds_witness :
  exists r,
    make_row (wp_post 2 "second" (lit "<p>Tom &amp; Jerry</p><script>x=1</script>")) = Ok r
    /\ 0 <= char_count r
         <= Z.of_nat (length (lit "<p>Tom &amp; Jerry</p><script>x=1</script>")).
Proof.
  eexists. split; [vm_compute; reflexivity|].
  apply (char_count_bounds
           (wp_post 2 "second" (lit "<p>Tom &amp; Jerry</p><script>x=1</script>")));
    [vm_compute; reflexivity|reflexivity].
Defined.

Lemma removes_tags_subsequence (s out : pystr) (c : N) :
  removes_tags s out -> In c out -> In c s.
Proof.
  intros H. induction H as [|body rest out Hb H IH|x rest out Hno H IH]; intros Hin.
  - exact Hin.
  - right. apply List.in_or_app. right. right. exact (IH Hin).
  - destruct Hin as [<-|Hin]; [left; reflexivity|right; exact (IH Hin)].
Qed.

Lemma removes_tags_no_tag (s out : pystr) :
  removes_tags s out -> ~ contains_tag out.
Proof.
  intros H. induction H as [|body rest out Hb H IH|c rest out Hno H IH].
  - intros (before & rest & Heq & body & rest' & _ & ->).
    destruct before; discriminate.
  - exact IH.
  - intros (before & suffix & Heq & Htag).
    destruct before as [|b before].
    + cbn [app] in Heq. subst suffix.
      destruct Htag as (body & rest' & [Hne Hnogt] & Heq).
      injection Heq as -> Hout. subst out.
      apply Hno.
      destruct body as [|x body]; [contradiction|].
      assert (Hx : x <> 62%N) by (apply Hnogt; left; reflexivity).
      cbn [app] in H.
      inversion H as [|body0 rest0 out0 Hb0 H0 Hs|c0 rest0 out0 Hno0 H0 Hs].
      * exists (60%N :: body0), rest0. split; [|reflexivity].
        split; [discriminate|].
        intros y [<-|Hy]; [discriminate|apply Hb0; exact Hy].
      * assert (Hgt : In 62%N rest0).
        { apply (removes_tags_subsequence rest0 (body ++ 62%N :: rest')); [exact H0|].
          apply List.in_or_app. right. left. reflexivity. }
        apply List.in_split in Hgt as (l1 & l2 & ->).
        assert (Hfirst : exists body1 rest1,
                   (forall c, In c body1 -> c <> 62%N)
                   /\ l1 ++ 62%N :: l2 = body1 ++ 62%N :: rest1).
        { clear. induction l1 as [|y l1 IH].
          - exists [], l2. split; [intros c []|reflexivity].
          - destruct (N.eq_dec y 62%N) as [->|Hy].
            + exists [], (l1 ++ 62%N :: l2). split; [intros c []|reflexivity].
            + destruct IH as (body1 & rest1 & Hb1 & Heq1).
              exists (y :: body1), rest1. split.
              * intros c [<-|Hc]; [exact Hy|apply Hb1; exact Hc].
              * cbn [app]. rewrite Heq1. reflexivity. }
        destruct Hfirst as (body1 & rest1 & Hb1 & Heq1).
        exists (x :: body1), rest1. split.
        -- split; [discriminate|]. intros c [<-|Hc]; [exact Hx|apply Hb1; exact Hc].
        -- cbn [app]. rewrite Heq1. reflexivity.
    + cbn [app] in Heq. injection Heq as _ Heq.
      apply IH. exists before, suffix. split; [exact Heq|exact Htag].
Qed.

(** X7.  The text that [strip_html] returns holds no match of the tag
    pattern any more. *)
Theorem strip_html_leaves_no_tag (html : json) (out : pystr) :
  strip_html html = Ok out -> ~ contains_tag out.
Proof.
  unfold strip_html. intros H.
  destruct (if truthy html then html else JStr []) as [| | | |s| |]; try discriminate.
  injection H as <-.
  intros (before & rest & Heq & body & rest' & Hb & ->).
  destruct (strip_inside (re_sub_tags s)) as (l & r & Hin).
  apply (removes_tags_no_tag s (re_sub_tags s) (re_sub_tags_removes s)).
  exists (l ++ before), (60%N :: body ++ 62%N :: rest' ++ r). split.
  - rewrite Hin at 1. rewrite Heq, <- !List.app_assoc. cbn [app].
    rewrite <- List.app_assoc. reflexivity.
  - exists body, (rest' ++ r). split; [exact Hb|reflexivity].
Qed.

Lemma strip_html_leaves_no_tag_witness :
  ~ contains_tag (lit "Hello world").
Proof.
  apply (strip_html_leaves_no_tag (JStr (lit " <p>Hello <b>world</b></p> "))).
  vm_compute. reflexivity.
Defined.

Lemma sub_tags_plain (s : pystr) : ~ In 60%N s -> sub_tags 0 s = s.
Proof.
  induction s as [|c s IH]; intros Hno; [reflexivity|].
  cbn [sub_tags]. destruct (c =? 60)%N eqn:Ec.
  - apply N.eqb_eq in Ec. subst c. exfalso. apply Hno. left. reflexivity.
  - rewrite IH; [reflexivity|]. intros Hin. apply Hno. right. exact Hin.
Qed.

(** X8.  Content without any "<" is only trimmed: its count is the length
    of the content without the white space at its two ends. *)
Theorem strip_html_plain_text (s : pystr) :
  ~ In 60%N s -> strip_html (JStr s) = Ok (strip s).
Proof.
  intros Hno. unfold strip_html. cbn [truthy].
  destruct s as [|c s]; [reflexivity|].
  cbn [length Nat.eqb negb]. unfold re_sub_tags. rewrite sub_tags_plain by exact Hno.
  reflexivity.
Qed.

Lemma strip_html_plain_text_witness :
  strip_html (JStr (lit " Tom &amp; Jerry ")) = Ok (strip (lit " Tom &amp; Jerry ")).
Proof.
  apply strip_html_plain_text. vm_compute. intros H.
  repeat (destruct H as [H|H]; [discriminate|]). exact H.
Defined.

(** ** Schedule generation: when it returns, what it sends, what it covers *)

Section ScheduleMore.
Variable py_repr : json -> pystr.
Variable today : date.
Variable chat : nat -> pystr -> option pystr.

Lemma generate_no_days (df : DataFrame) (days : Z) (tone : pystr)
    (api_key : option pystr) :
  days <= 0 ->
  generate_sns_schedule py_repr today chat df days tone api_key
  = (Ok [], {| post_iter := cycle df; records := []; sent := [] |}).
Proof.
  intros Hdays. unfold generate_sns_schedule, range.
  assert (Z.to_nat days = 0%nat) as -> by lia. reflexivity.
Qed.

Lemma generate_on_empty (days : Z) (tone : pystr) (api_key : option pystr) :
  1 <= days ->
  fst (generate_sns_schedule py_repr today chat [] days tone api_key) = Raise StopIteration.
Proof.
  intros Hdays. pose proof (today_valid today) as Ht.
  unfold generate_sns_schedule, range.
  destruct (Z.to_nat days) as [|n] eqn:En; [lia|].
  cbn [seq List.map for_each].
  unfold day_body at 1, timedelta.
  change (Z.abs (Z.of_nat 0) >? 999999999) with false.
  cbn [mbind res_bind Z.of_nat]. unfold date_add.
  destruct (fromordinal_valid (toordinal today + Z.of_nat 0)) as (dt & -> & _).
  { apply valid_ordinal_spec. lia. }
  reflexivity.
Qed.
End ScheduleMore.

(** X9.  The call returns a schedule exactly when no day is asked for, or
    the collection is not empty and the last day asked for is a date of
    the calendar.  With no day asked for the schedule is empty and nothing
    is sent, even for an empty collection; otherwise an empty collection
    raises [StopIteration] and days past the calendar raise
    [OverflowError]. *)
Theorem schedule_returns_exactly_when (py_repr : json -> pystr) (today : date)
    (chat : nat -> pystr -> option pystr) (df : DataFrame) (days : Z) (tone : pystr)
    (api_key : option pystr) :
  ((exists recs,
       fst (generate_sns_schedule py_repr today chat df days tone api_key) = Ok recs)
   <-> days <= 0 \/ (df <> [] /\ toordinal today + days - 1 <= MAXORDINAL))
  /\ (days <= 0 ->
      generate_sns_schedule py_repr today chat df days tone api_key
      = (Ok [], {| post_iter := cycle df; records := []; sent := [] |}))
  /\ (1 <= days -> df = [] ->
      fst (generate_sns_schedule py_repr today chat df days tone api_key)
      = Raise StopIteration)
  /\ (df <> [] -> MAXORDINAL < toordinal today + days - 1 ->
      fst (generate_sns_schedule py_repr today chat df days tone api_key)
      = Raise OverflowError).
Proof.
  assert (Hover : df <> [] -> MAXORDINAL < toordinal today + days - 1 ->
                  fst (generate_sns_schedule py_repr today chat df days tone api_key)
                  = Raise OverflowError).
  { intros Hdf Hd.
    destruct (generate_past_calendar py_repr today chat df tone Hdf days api_key Hd)
      as (st & -> & _). reflexivity. }
  split; [|split; [apply generate_no_days|split; [|exact Hover]]].
  - split.
    + intros [recs H].
      destruct (Z_le_gt_dec days 0) as [Hd|Hd]; [left; exact Hd|right].
      destruct df as [|p df'].
      * rewrite generate_on_empty in H by lia. discriminate.
      * split; [discriminate|].
        destruct (Z_le_gt_dec (toordinal today + days - 1) MAXORDINAL) as [Hc|Hc];
          [exact Hc|].
        rewrite Hover in H by (first [discriminate | lia]). discriminate.
    + intros [Hd | [Hdf Hc]].
      * exists []. rewrite generate_no_days by exact Hd. reflexivity.
      * eexists.
        rewrite (generate_in_calendar py_repr today chat df tone Hdf days api_key Hc).
        reflexivity.
  - intros Hd ->. apply generate_on_empty. exact Hd.
Qed.

Lemma schedule_returns_exactly_when_witness :
  (exists recs,
      fst (generate_sns_schedule sample_repr sample_today sample_chat sample_posts 365
             polite None) = Ok recs)
  /\ generate_sns_schedule sample_repr sample_today sample_chat [] 0 polite None
     = (Ok [], {| post_iter := cycle []; records := []; sent := [] |})
  /\ fst (generate_sns_schedule sample_repr sample_today sample_chat sample_posts 3000000
            polite None) = Raise OverflowError.
Proof.
  split; [|split].
  - apply (schedule_returns_exactly_when sample_repr sample_today sample_chat sample_posts
             365 polite None).
    right. split; [discriminate|vm_compute; discriminate].
  - apply (schedule_returns_exactly_when sample_repr sample_today sample_chat [] 0 polite
             None). lia.
  - apply (schedule_returns_exactly_when sample_repr sample_today sample_chat sample_posts
             3000000 polite None); [discriminate|vm_compute; reflexivity].
Defined.



(** X11.  When the schedule has at least as many entries as the collection
    has posts, every post of the collection appears in it. *)
Theorem schedule_covers_every_post (py_repr : json -> pystr) (today : date)
    (chat : nat -> pystr -> option pystr) (df : DataFrame) (days : Z) (tone : pystr)
    (api_key : option pystr) (recs : list entry) (st : gen_state) (p : row) :
  generate_sns_schedule py_repr today chat df days tone api_key = (Ok recs, st) ->
  In p df ->
  (length df <= 3 * Z.to_nat days)%nat ->
  exists i e,
    List.nth_error df i = Some p
    /\ List.nth_error recs i = Some e
    /\ rec_title e = title p
    /\ rec_url e = URL p.
Proof.
  intros H Hin Hlen.
  assert (Hdf : df <> []) by (destruct df; [destruct Hin|discriminate]).
  apply (generate_returns _ _ _ _ _ Hdf) in H as [-> _].
  apply List.In_nth_error in Hin as [i Hi].
  assert (Hlt : (i < length df)%nat) by (apply List.nth_error_Some; congruence).
  exists i, (entry_at py_repr today chat df (has_client api_key) tone i).
  split; [exact Hi|]. split.
  - rewrite List.nth_error_map, List.nth_error_seq.
    destruct (i <? 3 * Z.to_nat days)%nat eqn:E; [reflexivity|].
    apply Nat.ltb_ge in E. lia.
  - assert (Hp : post_at df i = p).
    { unfold post_at. rewrite Nat.mod_small by exact Hlt.
      apply List.nth_error_nth. exact Hi. }
    unfold entry_at; cbn [rec_title rec_url]. rewrite Hp. split; reflexivity.
Qed.

Lemma schedule_covers_every_post_witness :
  exists recs st,
    generate_sns_schedule sample_repr sample_today sample_chat sample_posts 1 polite None
    = (Ok recs, st)
    /\ exists i e,
         List.nth_error sample_posts i
         = Some (sample_post 12 "second" "https://blog.example/second")
         /\ List.nth_error recs i = Some e
         /\ rec_title e = title (sample_post 12 "second" "https://blog.example/second")
         /\ rec_url e = URL (sample_post 12 "second" "https://blog.example/second").
Proof.
  eexists. eexists. split; [vm_compute; reflexivity|].
  eapply (schedule_covers_every_post sample_repr sample_today sample_chat sample_posts 1
            polite None);
    [vm_compute; reflexivity | right; left; reflexivity | vm_compute; lia].
Defined.

(** ** Spreadsheet sync: what a call touches and what it reports *)

Section SheetsMore.
Variable py_repr : json -> pystr.
Variable fails : api_call -> bool.

Lemma read_other_worksheet (svc : sheets_service) (sh sh' : gmap pystr grid)
    (sheet_id worksheet_name sheet_id' worksheet_name' : pystr) :
  svc !! sheet_id = Some sh ->
  (forall name, name <> worksheet_name -> sh' !! name = sh !! name) ->
  sheet_id' <> sheet_id \/ worksheet_name' <> worksheet_name ->
  read_worksheet (<[sheet_id := sh']> svc) sheet_id' worksheet_name'
  = read_worksheet svc sheet_id' worksheet_name'.
Proof.
  intros Hsvc Hsame Hother. unfold read_worksheet.
  destruct (decide (sheet_id' = sheet_id)) as [->|Hne].
  - rewrite lookup_insert_eq, Hsvc. cbn [mbind option_bind].
    destruct Hother as [Hid|Hname]; [contradiction|]. apply Hsame. exact Hname.
  - rewrite lookup_insert_ne by congruence. reflexivity.
Qed.

Lemma write_frame (svc svc' : sheets_service) (df : DataFrame)
    (sheet_id worksheet_name : pystr) (ok : bool) (msgs : list message)
    (sheet_id' worksheet_name' : pystr) :
  write_to_sheets py_repr fails svc df sheet_id worksheet_name = (ok, svc', msgs) ->
  sheet_id' <> sheet_id \/ worksheet_name' <> worksheet_name ->
  read_worksheet svc' sheet_id' worksheet_name'
  = read_worksheet svc sheet_id' worksheet_name'.
Proof.
  unfold write_to_sheets, open_by_key, worksheet, add_worksheet, clear, update, call.
  intros H Hother.
  destruct (fails ReadSecrets); cbn [mbind res_bind] in H; [injection H as _ <- _; reflexivity|].
  destruct (fails FromServiceAccountInfo); cbn [mbind res_bind] in H;
    [injection H as _ <- _; reflexivity|].
  destruct (fails Authorize); cbn [mbind res_bind] in H;
    [injection H as _ <- _; reflexivity|].
  destruct (fails OpenByKey); [injection H as _ <- _; reflexivity|].
  destruct (svc !! sheet_id) as [sh|] eqn:Hsvc; [|injection H as _ <- _; reflexivity].
  destruct (fails Clear), (fails Update), (fails GetWorksheet), (fails AddWorksheet),
    (sh !! worksheet_name) as [ws|] eqn:Hws;
    rewrite ?lookup_insert_eq in H; injection H as _ <- _;
    first [ reflexivity
          | apply (read_other_worksheet svc sh _ sheet_id worksheet_name); [exact Hsvc| |exact Hother];
            intros name Hname; rewrite ?lookup_insert_ne by congruence; reflexivity ].
Qed.

Lemma write_outcome (svc svc' : sheets_service) (df : DataFrame)
    (sheet_id worksheet_name : pystr) (ok : bool) (msgs : list message) :
  write_to_sheets py_repr fails svc df sheet_id worksheet_name = (ok, svc', msgs) ->
  (ok = true /\ msgs = []) \/ (ok = false /\ exists e, msgs = [SheetsError e]).
Proof.
  unfold write_to_sheets, open_by_key, worksheet, add_worksheet, clear, update, call.
  intros H.
  destruct (fails ReadSecrets); cbn [mbind res_bind] in H;
    [injection H as <- _ <-; right; eauto|].
  destruct (fails FromServiceAccountInfo); cbn [mbind res_bind] in H;
    [injection H as <- _ <-; right; eauto|].
  destruct (fails Authorize); cbn [mbind res_bind] in H;
    [injection H as <- _ <-; right; eauto|].
  destruct (fails OpenByKey); [injection H as <- _ <-; right; eauto|].
  destruct (svc !! sheet_id) as [sh|]; [|injection H as <- _ <-; right; eauto].
  destruct (fails Clear), (fails Update), (fails GetWorksheet), (fails AddWorksheet),
    (sh !! worksheet_name) as [ws|];
    rewrite ?lookup_insert_eq in H; injection H as <- _ <-;
    first [left; split; reflexivity | right; eauto].
Qed.

Lemma write_all_calls_succeed (svc : sheets_service) (df : DataFrame)
    (sheet_id worksheet_name : pystr) (sh : gmap pystr grid) :
  (forall c, fails c = false) ->
  svc !! sheet_id = Some sh ->
  exists svc', write_to_sheets py_repr fails svc df sheet_id worksheet_name = (true, svc', []).
Proof.
  intros Hok Hsvc.
  unfold write_to_sheets, open_by_key, worksheet, add_worksheet, clear, update, call.
  rewrite !Hok. cbn [mbind res_bind]. rewrite Hsvc.
  destruct (sh !! worksheet_name); rewrite lookup_insert_eq; eauto.
Qed.

Lemma write_early_failure (svc : sheets_service) (df : DataFrame)
    (sheet_id worksheet_name : pystr) :
  fails ReadSecrets = true \/ fails FromServiceAccountInfo = true
  \/ fails Authorize = true \/ fails OpenByKey = true \/ svc !! sheet_id = None ->
  write_to_sheets py_repr fails svc df sheet_id worksheet_name
  = (false, svc, [SheetsError APIError]).
Proof.
  intros H.
  unfold write_to_sheets, open_by_key, call.
  destruct (fails ReadSecrets); cbn [mbind res_bind]; [reflexivity|].
  destruct (fails FromServiceAccountInfo); cbn [mbind res_bind]; [reflexivity|].
  destruct (fails Authorize); cbn [mbind res_bind]; [reflexivity|].
  destruct (fails OpenByKey); [reflexivity|].
  destruct H as [H|[H|[H|[H|H]]]]; try discriminate.
  rewrite H. reflexivity.
Qed.

Lemma write_failed_clear_after_add (svc : sheets_service) (df : DataFrame)
    (sheet_id worksheet_name : pystr) (sh : gmap pystr grid) :
  (forall c, fails c = true <-> c = Clear) ->
  svc !! sheet_id = Some sh ->
  sh !! worksheet_name = None ->
  write_to_sheets py_repr fails svc df sheet_id worksheet_name
  = (false, <[sheet_id := <[worksheet_name := []]> sh]> svc, [SheetsError APIError]).
Proof.
  intros Hfails Hsvc Hws.
  assert (Hok : forall c, c <> Clear -> fails c = false).
  { intros c Hc. destruct (fails c) eqn:E; [|reflexivity]. apply Hfails in E. contradiction. }
  assert (Hclear : fails Clear = true) by (apply Hfails; reflexivity).
  unfold write_to_sheets, open_by_key, worksheet, add_worksheet, clear, call.
  rewrite !Hok by discriminate. cbn [mbind res_bind].
  rewrite Hsvc, Hws, Hclear. reflexivity.
Qed.
End SheetsMore.

(** X12.  Whatever the outcome of a call, every worksheet other than the
    target, in the same or in another spreadsheet, reads as before. *)
Theorem write_leaves_other_worksheets (py_repr : json -> pystr) (fails : api_call -> bool)
    (svc svc' : sheets_service) (df : DataFrame) (sheet_id worksheet_name : pystr)
    (ok : bool) (msgs : list message) (sheet_id' worksheet_name' : pystr) :
  write_to_sheets py_repr fails svc df sheet_id worksheet_name = (ok, svc', msgs) ->
  sheet_id' <> sheet_id \/ worksheet_name' <> worksheet_name ->
  read_worksheet svc' sheet_id' worksheet_name'
  = read_worksheet svc sheet_id' worksheet_name'.
Proof. apply write_frame. Qed.

Lemma write_leaves_other_worksheets_witness :
  exists svc',
    write_to_sheets sample_repr no_failure sample_service sample_posts (lit "sheet-1")
      (lit "Fresh") = (true, svc', [])
    /\ read_worksheet svc' (lit "sheet-1") (lit "WP_Posts")
       = read_worksheet sample_service (lit "sheet-1") (lit "WP_Posts").
Proof.
  eexists. split; [reflexivity|].
  apply (write_leaves_other_worksheets sample_repr no_failure sample_service _ sample_posts
           (lit "sheet-1") (lit "Fresh") true []);
    [reflexivity|right; discriminate].
Defined.

(** X13.  A call reports every failure and nothing else: it returns [True]
    with no message, or [False] with exactly one error message. *)
Theorem write_reports_every_failure (py_repr : json -> pystr) (fails : api_call -> bool)
    (svc svc' : sheets_service) (df : DataFrame) (sheet_id worksheet_name : pystr)
    (ok : bool) (msgs : list message) :
  write_to_sheets py_repr fails svc df sheet_id worksheet_name = (ok, svc', msgs) ->
  (ok = true /\ msgs = []) \/ (ok = false /\ exists e, msgs = [SheetsError e]).
Proof. apply write_outcome. Qed.

Lemma write_reports_every_failure_witness :
  exists ok svc' msgs,
    write_to_sheets sample_repr open_fails sample_service sample_posts (lit "sheet-1")
      (lit "WP_Posts") = (ok, svc', msgs)
    /\ ((ok = true /\ msgs = []) \/ (ok = false /\ exists e, msgs = [SheetsError e])).
Proof.
  do 3 eexists. split; [reflexivity|].
  apply (write_reports_every_failure sample_repr open_fails sample_service sample_service
           sample_posts (lit "sheet-1") (lit "WP_Posts")).
  reflexivity.
Defined.

(** X14.  When no call to the service fails and the spreadsheet exists,
    the call returns [True], whether the worksheet existed or has to be
    added, and the worksheet then holds the header row of the eight column
    names followed by the rows of the table with their cells as text. *)
Theorem write_succeeds_when_service_does (py_repr : json -> pystr)
    (fails : api_call -> bool) (svc : sheets_service) (df : DataFrame)
    (sheet_id worksheet_name : pystr) (sh : gmap pystr grid) :
  (forall c, fails c = false) ->
  svc !! sheet_id = Some sh ->
  exists svc',
    write_to_sheets py_repr fails svc df sheet_id worksheet_name = (true, svc', [])
    /\ read_worksheet svc' sheet_id worksheet_name = Some (expected_sheet py_repr df).
Proof.
  intros Hok Hsvc.
  destruct (write_all_calls_succeed py_repr fails svc df sheet_id worksheet_name sh Hok Hsvc)
    as [svc' H].
  exists svc'. split; [exact H|].
  rewrite <- sheet_values_expected.
  exact (write_success_contents py_repr fails svc svc' df sheet_id worksheet_name [] H).
Qed.

Lemma write_succeeds_when_service_does_witness :
  exists svc',
    write_to_sheets sample_repr no_failure sample_service sample_posts (lit "sheet-1")
      (lit "Fresh") = (true, svc', [])
    /\ read_worksheet svc' (lit "sheet-1") (lit "Fresh")
       = Some
           [ [ [35352; 20107; 73; 68]%N; [12479; 12452; 12488; 12523]%N;
               [12473; 12521; 12483; 12464]%N; [85; 82; 76]%N;
               [12473; 12486; 12540; 12479; 12473]%N; [20844; 38283; 26085]%N;
               [26368; 32066; 26356; 26032; 26085]%N; [25991; 23383; 25968]%N ];
             List.map lit
               [ "11"; "first"; "first"; "https://blog.example/first"; "publish";
                 "2026-10-01T09:00:00"; "2026-10-02T09:00:00"; "120" ]%string;
             List.map lit
               [ "12"; "second"; "second"; "https://blog.example/second"; "publish";
                 "2026-10-01T09:00:00"; "2026-10-02T09:00:00"; "120" ]%string ].
Proof.
  apply (write_succeeds_when_service_does sample_repr no_failure sample_service sample_posts
           (lit "sheet-1") (lit "Fresh")
           {[ lit "WP_Posts" := [[lit "old"; lit "header"; lit "x"]; [lit "old"; lit "row"]] ]});
    [reflexivity|reflexivity].
Defined.

(** X15.  When reading the secret, building the credentials, authorising
    or opening the spreadsheet fails, or the spreadsheet does not exist,
    the call returns [False] and has changed nothing in the service. *)
Theorem write_fails_before_touching (py_repr : json -> pystr) (fails : api_call -> bool)
    (svc : sheets_service) (df : DataFrame) (sheet_id worksheet_name : pystr) :
  fails ReadSecrets = true \/ fails FromServiceAccountInfo = true
  \/ fails Authorize = true \/ fails OpenByKey = true \/ svc !! sheet_id = None ->
  write_to_sheets py_repr fails svc df sheet_id worksheet_name
  = (false, svc, [SheetsError APIError]).
Proof. apply write_early_failure. Qed.

Lemma write_fails_before_touching_witness :
  write_to_sheets sample_repr no_failure sample_service sample_posts (lit "nowhere")
    (lit "WP_Posts") = (false, sample_service, [SheetsError APIError]).
Proof.
  apply write_fails_before_touching. do 4 right. reflexivity.
Defined.

(** X16.  A worksheet that the call had to add stays in the spreadsheet,
    empty, when the clear that follows fails: the addition is not undone
    either. *)
Theorem write_keeps_added_worksheet (py_repr : json -> pystr) (fails : api_call -> bool)
    (svc : sheets_service) (df : DataFrame) (sheet_id worksheet_name : pystr)
    (sh : gmap pystr grid) :
  (forall c, fails c = true <-> c = Clear) ->
  svc !! sheet_id = Some sh ->
  sh !! worksheet_name = None ->
  exists svc',
    write_to_sheets py_repr fails svc df sheet_id worksheet_name
    = (false, svc', [SheetsError APIError])
    /\ read_worksheet svc sheet_id worksheet_name = None
    /\ read_worksheet svc' sheet_id worksheet_name = Some [].
Proof.
  intros Hfails Hsvc Hws.
  eexists. split; [apply write_failed_clear_after_add; eassumption|].
  unfold read_worksheet. rewrite Hsvc, lookup_insert_eq. cbn [mbind option_bind].
  rewrite Hws, lookup_insert_eq. split; reflexivity.
Qed.

Lemma write_keeps_added_worksheet_witness :
  exists svc',
    write_to_sheets sample_repr clear_fails sample_service sample_posts (lit "sheet-1")
      (lit "Fresh") = (false, svc', [SheetsError APIError])
    /\ read_worksheet sample_service (lit "sheet-1") (lit "Fresh") = None
    /\ read_worksheet svc' (lit "sheet-1") (lit "Fresh") = Some [].
Proof.
  apply (write_keeps_added_worksheet sample_repr clear_fails sample_service sample_posts
           (lit "sheet-1") (lit "Fresh")
           {[ lit "WP_Posts" := [[lit "old"; lit "header"; lit "x"]; [lit "old"; lit "row"]] ]}).
  - intros c. destruct c; split; intros H; first [reflexivity | discriminate].
  - reflexivity.
  - reflexivity.
Defined.

(** ** Entry point and tabs *)

(** X17.  The tool opens exactly when the configuration did not fail to
    load and the query string carries a non-empty token that decodes to a
    non-empty claim set.  Neither the presence of the configuration file
    nor the signature or the expiry of the token plays a part; a token
    with an empty claim set leads back to the login screen. *)
Theorem main_app_needs_only_a_decodable_token (load : pystr -> option claims)
    (signature_valid : pystr -> bool) (now : Z) (file : option (res json))
    (token : option pystr) (user : claims) :
  app_entry load signature_valid now file token = MainApp user
  <-> (forall e, file <> Some (Raise e))
      /\ exists tok, token = Some tok /\ tok <> [] /\ load tok = Some user /\ user <> [].
Proof.
  unfold app_entry, load_firebase_config, verify_firebase_token, jwt_decode.
  split.
  - intros H.
    destruct file as [[config|e]|]; try discriminate;
      (split; [intros e'; congruence|]);
      (destruct token as [[|c tok]|]; try discriminate;
       destruct (load (c :: tok)) as [[|kv payload]|] eqn:Hload; try discriminate;
       injection H as <-;
       exists (c :: tok); repeat split; first [reflexivity | discriminate | exact Hload]).
  - intros (Hfile & tok & -> & Hne & Hload & Huser).
    destruct tok as [|c tok]; [contradiction|].
    destruct user as [|kv user]; [contradiction|].
    destruct file as [[config|e]|]; [| exfalso; apply (Hfile e); reflexivity |];
      rewrite Hload; reflexivity.
Qed.

Lemma main_app_needs_only_a_decodable_token_witness :
  sample_signature_valid sample_token = false
  /\ app_entry sample_load sample_signature_valid sample_now None (Some sample_token)
     = MainApp [(lit "sub", JStr (lit "u1")); (lit "exp", JInt 100)].
Proof.
  split; [reflexivity|].
  apply main_app_needs_only_a_decodable_token.
  split; [discriminate|].
  exists sample_token. repeat split; first [reflexivity | discriminate].
Defined.

Lemma on_fetch_session (p : fetch_press) (s s' : session_state) (shown : list widget) :
  on_fetch (press_int p) (press_server p) (press_fuel p) s = Some (s', shown) ->
  session_posts s' = match fetched p with
                     | Some df => Some df
                     | None => session_posts s
                     end.
Proof.
  unfold on_fetch, fetched. intros H.
  destruct (fetch_wp_posts (press_int p) (press_server p) (press_fuel p))
    as [[[df|] msgs]|]; [| |discriminate]; injection H as <- _; reflexivity.
Qed.

(** X18.  After any sequence of presses of the fetch button the session
    holds the table of the last fetch that returned one; if none did, it
    holds what it held before.  A fetch that fails never removes the posts
    and never replaces them. *)
Theorem session_posts_persist (presses : list fetch_press) (s s' : session_state) :
  after_fetches presses s = Some s' ->
  (Forall (fun p => fetched p = None) presses /\ session_posts s' = session_posts s)
  \/ exists before p after df,
       presses = before ++ p :: after
       /\ fetched p = Some df
       /\ Forall (fun p => fetched p = None) after
       /\ session_posts s' = Some df.
Proof.
  revert s. induction presses as [|p presses IH]; intros s H.
  - injection H as <-. left. split; [constructor|reflexivity].
  - cbn [after_fetches] in H.
    destruct (on_fetch (press_int p) (press_server p) (press_fuel p) s)
      as [[s1 shown]|] eqn:Hp; [|discriminate].
    apply on_fetch_session in Hp.
    destruct (IH s1 H) as [[Hall Hs']|(before & q & after & df & -> & Hq & Hall & Hs')].
    + destruct (fetched p) as [df|] eqn:Hf.
      * right. exists [], p, presses, df. repeat split; try assumption. congruence.
      * left. split; [constructor; assumption|congruence].
    + right. exists (p :: before), q, after, df. repeat split; assumption.
Qed.

Lemma session_posts_persist_witness :
  exists s',
    after_fetches
      [ {| press_int := ascii_int; press_server := sample_server; press_fuel := 3 |};
        {| press_int := ascii_int; press_server := failing_server; press_fuel := 10 |} ]
      {| session_posts := None |} = Some s'
    /\ exists df,
         fetched {| press_int := ascii_int; press_server := sample_server; press_fuel := 3 |}
         = Some df
         /\ fetched {| press_int := ascii_int; press_server := failing_server;
                       press_fuel := 10 |} = None
         /\ session_posts s' = Some df.
Proof.
  eexists. split; [vm_compute; reflexivity|].
  eexists. split; [vm_compute; reflexivity|]. split; [reflexivity|].
  destruct (session_posts_persist
              [ {| press_int := ascii_int; press_server := sample_server; press_fuel := 3 |};
                {| press_int := ascii_int; press_server := failing_server;
                   press_fuel := 10 |} ]
              {| session_posts := None |} _ ltac:(vm_compute; reflexivity))
    as [[Hall _]|(before & p & after & df & Heq & Hf & Hall & Hs)].
  - inversion Hall as [|? ? Hfirst _]. vm_compute in Hfirst. discriminate.
  - vm_compute. reflexivity.
Defined.

(** X19.  Fetching from a site without posts succeeds and puts the empty
    table into the session; pressing the schedule button afterwards, for
    any number of days from 1 on, raises [StopIteration], which nothing in
    the tab catches. *)
Theorem empty_site_breaks_schedule (py_repr : json -> pystr) (py_int : pystr -> res Z)
    (server : Z -> res response) (today : date) (chat : nat -> pystr -> option pystr)
    (r : response) (posts : json) (fuel : nat) (s : session_state) (days : Z)
    (tone : pystr) (api_key : option pystr) :
  server 1 = Ok r ->
  status_code r = 200 ->
  json_body r = Ok posts ->
  truthy posts = false ->
  (1 <= fuel)%nat ->
  1 <= days ->
  on_fetch py_int server fuel s
  = Some ({| session_posts := Some [] |}, [FetchSuccess; ShowTable []])
  /\ on_generate py_repr today chat {| session_posts := Some [] |} days tone api_key
     = Raise StopIteration.
Proof.
  intros Hr H200 Hbody Hfalse Hfuel Hdays. split.
  - unfold on_fetch.
    destruct (fetch_on_empty_first_page py_int server r posts fuel Hr H200 Hbody Hfalse Hfuel)
      as [_ ->]. reflexivity.
  - unfold on_generate. cbn [session_posts].
    rewrite generate_on_empty by exact Hdays. reflexivity.
Qed.

Lemma empty_site_breaks_schedule_witness :
  on_fetch ascii_int empty_server 1 {| session_posts := None |}
  = Some ({| session_posts := Some [] |}, [FetchSuccess; ShowTable []])
  /\ on_generate sample_repr sample_today sample_chat {| session_posts := Some [] |} 30
       polite None
     = Raise StopIteration.
Proof.
  apply (empty_site_breaks_schedule sample_repr ascii_int empty_server sample_today
           sample_chat
           {| status_code := 200; text := lit "[...]"; json_body := Ok (JArr []);
              total_pages_header := Some (lit "0") |} (JArr []));
    [reflexivity | reflexivity | reflexivity | reflexivity | lia | lia].
Defined.

(** X20.  A call that returns [False] has lost the old content of the
    target worksheet in one case only: the clear went through and the
    update failed.  After every other failure the worksheet reads as
    before. *)
Theorem write_loses_data_only_after_clear (py_repr : json -> pystr)
    (fails : api_call -> bool) (svc svc' : sheets_service) (df : DataFrame)
    (sheet_id worksheet_name : pystr) (msgs : list message) (old : grid) :
  write_to_sheets py_repr fails svc df sheet_id worksheet_name = (false, svc', msgs) ->
  read_worksheet svc sheet_id worksheet_name = Some old ->
  read_worksheet svc' sheet_id worksheet_name = Some old
  \/ (fails Clear = false /\ fails Update = true
      /\ read_worksheet svc' sheet_id worksheet_name = Some []).
Proof.
  unfold write_to_sheets, open_by_key, worksheet, add_worksheet, clear, update, call.
  intros H Hold.
  destruct (fails ReadSecrets); cbn [mbind res_bind] in H;
    [injection H as <- _; left; exact Hold|].
  destruct (fails FromServiceAccountInfo); cbn [mbind res_bind] in H;
    [injection H as <- _; left; exact Hold|].
  destruct (fails Authorize); cbn [mbind res_bind] in H;
    [injection H as <- _; left; exact Hold|].
  destruct (fails OpenByKey); [injection H as <- _; left; exact Hold|].
  unfold read_worksheet in Hold |- *.
  destruct (svc !! sheet_id) as [sh|] eqn:Hsvc; [|discriminate].
  cbn [mbind option_bind] in Hold. rewrite Hold in H.
  destruct (fails Clear), (fails Update), (fails GetWorksheet), (fails AddWorksheet);
    rewrite ?lookup_insert_eq in H; try discriminate; injection H as <- _;
    rewrite ?lookup_insert_eq, ?Hsvc; cbn [mbind option_bind];
    rewrite ?lookup_insert_eq;
    first [ left; exact Hold | right; repeat split; reflexivity ].
Qed.

Lemma write_loses_data_only_after_clear_witness :
  exists svc',
    write_to_sheets sample_repr clear_fails sample_service sample_posts (lit "sheet-1")
      (lit "WP_Posts") = (false, svc', [SheetsError APIError])
    /\ (read_worksheet svc' (lit "sheet-1") (lit "WP_Posts")
        = Some [[lit "old"; lit "header"; lit "x"]; [lit "old"; lit "row"]]
        \/ (clear_fails Clear = false /\ clear_fails Update = true
            /\ read_worksheet svc' (lit "sheet-1") (lit "WP_Posts") = Some [])).
Proof.
  eexists. split; [reflexivity|].
  apply (write_loses_data_only_after_clear sample_repr clear_fails sample_service _
           sample_posts (lit "sheet-1") (lit "WP_Posts") [SheetsError APIError]);
    [reflexivity|reflexivity].
Defined.
